(** * mss/helpers.py: the PNG writer [MSS.to_png] and the capture loop [MSS.save]

    A shallow embedding of [src/mss/helpers.py].  Python [bytes] are lists of
    [Byte.byte], Python integers are [Z], text strings are [string], the file
    system is a finite map from paths to contents, and a raised exception is
    the [Raise] branch of a result carried through a state monad. *)

From Stdlib Require Import ZArith List String Ascii Bool Lia DecimalString.
From Stdlib Require DecimalPos DecimalZ.
From Stdlib.Strings Require Import Byte.
From stdpp Require Import gmap strings list.

Local Open Scope Z_scope.

(** ** Bytes *)

Abbreviation bytes := (list byte).

Definition Z_of_byte (b : byte) : Z := Z.of_N (Byte.to_N b).

Definition byte_of_Z (n : Z) : byte :=
  match Byte.of_N (Z.to_N n) with
  | Some b => b
  | None => x00
  end.

(** [len(s)] *)
Definition len {A} (s : list A) : Z := Z.of_nat (length s).

(** A bytes literal such as [b'IHDR']. *)
Definition b_lit (s : string) : bytes := list_byte_of_string s.

(** ** Exceptions *)

Inductive exn :=
| StructError                 (* struct.error *)
| IOError                     (* raised by open / file.write *)
| NotImplementedError (msg : string)
| ScreenshotError (msg : string).

Inductive result (A : Type) :=
| Ok (a : A)
| Raise (e : exn).
Arguments Ok {A} a.
Arguments Raise {A} e.

(** ** [struct.pack] for the big-endian formats the module uses

    A format such as ['>2I5B'] is the code list [I; I; B; B; B; B; B]:
    [B] is one unsigned byte, [I] a 4-byte unsigned integer, most
    significant byte first.  A value out of range, or a wrong number of
    values, raises [struct.error]. *)

Inductive fmt_code := fmt_B | fmt_I.

Fixpoint big_endian (n : nat) (v : Z) : bytes :=
  match n with
  | O => []
  | S k => byte_of_Z (Z.land (Z.shiftr v (8 * Z.of_nat k)) 255) :: big_endian k v
  end.

Definition pack_one (c : fmt_code) (v : Z) : result bytes :=
  match c with
  | fmt_B => if (0 <=? v) && (v <? 256) then Ok (big_endian 1 v) else Raise StructError
  | fmt_I => if (0 <=? v) && (v <? 2 ^ 32) then Ok (big_endian 4 v) else Raise StructError
  end.

Fixpoint pack (fmt : list fmt_code) (vals : list Z) : result bytes :=
  match fmt, vals with
  | [], [] => Ok []
  | c :: fmt', v :: vals' =>
      match pack_one c v with
      | Ok b1 =>
          match pack fmt' vals' with
          | Ok b2 => Ok (b1 ++ b2)
          | Raise e => Raise e
          end
      | Raise e => Raise e
      end
  | _, _ => Raise StructError
  end.

(** ** [zlib.crc32] (the reflected CRC-32 of polynomial 0xEDB88320) *)

Definition crc_shift (c : Z) : Z :=
  if Z.testbit c 0 then Z.lxor (Z.shiftr c 1) 0xEDB88320 else Z.shiftr c 1.

Definition crc_update (c : Z) (b : byte) : Z :=
  Nat.iter 8 crc_shift (Z.lxor c (Z_of_byte b)).

Definition crc32 (s : bytes) : Z :=
  Z.lxor (fold_left crc_update s 0xFFFFFFFF) 0xFFFFFFFF.

(** ** Slices and ranges *)

(** How Python places a slice bound on a sequence of length [n]: a negative
    bound counts from the end, and every bound is clamped into [0..n]. *)
Definition slice_bound (n i : Z) : Z :=
  if i <? 0 then Z.max 0 (i + n) else Z.min i n.

(** [s[lo:hi]] *)
Definition py_slice {A} (s : list A) (lo hi : Z) : list A :=
  let lo' := slice_bound (len s) lo in
  let hi' := slice_bound (len s) hi in
  firstn (Z.to_nat (hi' - lo')) (skipn (Z.to_nat lo') s).

(** [range(n)] *)
Definition py_range (n : Z) : list Z := map Z.of_nat (seq 0 (Z.to_nat n)).

(** [b''.join(parts)] *)
Definition b_join (parts : list bytes) : bytes := concat parts.

(** ** Text strings *)

(** [needle in s], for text strings. *)
Definition py_in (needle s : string) : bool :=
  match String.index 0 needle s with
  | Some _ => true
  | None => false
  end.

(** [s.replace('%d', new)]: every occurrence, scanning from the left. *)
Fixpoint replace_pct_d (s new : string) : string :=
  match s with
  | String "%" (String "d" rest) => new +:+ replace_pct_d rest new
  | String c rest => String c (replace_pct_d rest new)
  | EmptyString => EmptyString
  end.

(** [str(n)] *)
Definition str (n : Z) : string := NilZero.string_of_int (Z.to_int n).

(** The double-quote character, for the error message of [to_png]. *)
Definition dquote : string := String (ascii_of_nat 34) EmptyString.

(** ** Monitors, events and the world *)

(** The dict [{'left': .., 'top': .., 'width': .., 'height': ..}] that
    [enum_display_monitors] produces for one capture target. *)
Record monitor := Monitor {
  m_left : Z;
  m_top : Z;
  m_width : Z;
  m_height : Z
}.

(** Calls that [save] makes to its collaborators, in the order made. *)
Inductive event :=
| Called (fname : string) (answer : bool)   (* callback(fname), and what it returned *)
| Captured (mon : monitor).                 (* self.get_pixels(monitor) *)

(** The world a call runs in: the files on disk, the paths [open] refuses,
    the outcome of the coming [write] calls ([true]: that write fails; an
    exhausted script means success), and the log of collaborator calls. *)
Record world := World {
  files : gmap string bytes;
  denied : gset string;
  faults : list bool;
  log : list event
}.

Definition set_files (f : gmap string bytes) (w : world) : world :=
  World f (denied w) (faults w) (log w).
Definition set_faults (fl : list bool) (w : world) : world :=
  World (files w) (denied w) fl (log w).
Definition record (e : event) (w : world) : world :=
  World (files w) (denied w) (faults w) (log w ++ [e]).

(** ** Computations: state and exceptions *)

Definition M (A : Type) : Type := world -> result A * world.

#[global] Instance M_ret : MRet M := fun A a w => (Ok a, w).
#[global] Instance M_bind : MBind M := fun A B f m w =>
  match m w with
  | (Ok a, w') => f a w'
  | (Raise e, w') => (Raise e, w')
  end.

Definition raise {A} (e : exn) : M A := fun w => (Raise e, w).

Definition lift {A} (r : result A) : M A := fun w => (r, w).

(** ** Files *)

(** [open(path, 'wb')]: refused paths raise; otherwise the file is created
    or truncated.  The handle is the path. *)
Definition open_wb (path : string) : M string := fun w =>
  if decide (path ∈ denied w) then (Raise IOError, w)
  else (Ok path, set_files (<[path := []]> (files w)) w).

(** [fileh.write(data)]: appends, unless the script says this write fails. *)
Definition write (fileh : string) (data : bytes) : M unit := fun w =>
  match faults w with
  | true :: fl => (Raise IOError, set_faults fl w)
  | fl =>
      (Ok tt, set_faults (tl fl)
                (set_files (<[fileh := default [] (files w !! fileh) ++ data]> (files w)) w))
  end.

(** How the body of a [with] block ends when it does not raise. *)
Inductive completion := Normal | Return.

(** What [file.__exit__] answers: a false value, so that an exception raised
    in the block is not swallowed. *)
Definition file_exit_swallows : bool := false.

(** [with open(path, 'wb') as fileh: body] *)
Definition with_open (path : string) (body : string -> M completion) : M completion :=
  fun w =>
    match open_wb path w with
    | (Raise e, w1) => (Raise e, w1)
    | (Ok fileh, w1) =>
        match body fileh w1 with
        | (Ok c, w2) => (Ok c, w2)
        | (Raise e, w2) =>
            if file_exit_swallows then (Ok Normal, w2) else (Raise e, w2)
        end
    end.

(** ** The backend interface

    [enum_display_monitors] and [get_pixels] are overridden by the system
    specific classes. *)
Class Backend := {
  enum_display_monitors : Z -> result (list monitor);
  get_pixels : monitor -> result bytes
}.

Definition not_implemented : string := "Subclasses need to implement this!".

(** The base class [MSS] itself. *)
Definition MSS : Backend := {|
  enum_display_monitors := fun _ => Raise (NotImplementedError not_implemented);
  get_pixels := fun _ => Raise (NotImplementedError not_implemented)
|}.

Section Program.

(** [zlib.compress] at its default level, taken as given. *)
Variable compress : bytes -> bytes.

(** ** [MSS.to_png] *)

Definition to_png (data : bytes) (width height : Z) (output : string) : M unit :=
  let b := pack in
  let line := Z.land (width * 3 + 3) (-4) in
  let padding := if line mod 8 =? 0 then 0 else (line mod 8) / 2 in
  png_filter ← lift (b [fmt_B] [0]);
  let scanlines :=
    b_join (map (fun y => png_filter ++ py_slice data (y * line) (y * line + line - padding))
                (py_range height)) in

  magic ← lift (b (repeat fmt_B 8) [137; 80; 78; 71; 13; 10; 26; 10]);

  (* Header: size, marker, data, CRC32 *)
  let ihdr1 := b_lit "IHDR" in
  ihdr2 ← lift (b [fmt_I; fmt_I; fmt_B; fmt_B; fmt_B; fmt_B; fmt_B]
                  [width; height; 8; 2; 0; 0; 0]);
  ihdr3 ← lift (b [fmt_I] [Z.land (crc32 (b_join [ihdr1; ihdr2])) 0xffffffff]);
  ihdr0 ← lift (b [fmt_I] [len ihdr2]);

  (* Data: size, marker, data, CRC32 *)
  let idat1 := b_lit "IDAT" in
  let idat2 := compress scanlines in
  idat3 ← lift (b [fmt_I] [Z.land (crc32 (b_join [idat1; idat2])) 0xffffffff]);
  idat0 ← lift (b [fmt_I] [len idat2]);

  (* Footer: size, marker, None, CRC32 *)
  let iend1 := b_lit "IEND" in
  let iend2 := [] in
  iend3 ← lift (b [fmt_I] [Z.land (crc32 iend1) 0xffffffff]);
  iend0 ← lift (b [fmt_I] [len iend2]);

  c ← with_open output (fun fileh =>
        write fileh magic;;
        write fileh (b_join [ihdr0; ihdr1; ihdr2; ihdr3]);;
        write fileh (b_join [idat0; idat1; idat2; idat3]);;
        write fileh (b_join [iend0; iend1; iend2; iend3]);;
        mret Return);
  match c with
  | Return => mret tt
  | Normal =>
      let err := "Error writing data to " +:+ dquote +:+ output +:+ dquote +:+ "." in
      raise (ScreenshotError err)
  end.

(** ** [MSS.save]

    [save] is a generator: nothing runs when it is called, and each
    [next()] runs the loop up to the following [yield]. *)

Context {backend : Backend}.

Variable output : string.
Variable screen : Z.
Variable callback : string -> bool.

(** One turn of the [for] loop, for the pair [(i, monitor)] that
    [enumerate] hands out: [Some fname] when the turn reaches its [yield]. *)
Definition save_turn (i : Z) (mon : monitor) : M (option string) :=
  if (screen <=? 0) || ((screen >? 0) && (i + 1 =? screen)) then
    let fname :=
      if py_in "%d" output then replace_pct_d output (str (i + 1)) else output in
    (fun w => (Ok tt, record (Called fname (callback fname)) w));;
    data ← (fun w => (get_pixels mon, record (Captured mon) w));
    to_png data (m_width mon) (m_height mon) fname;;
    mret (Some fname)
  else mret None.

(** The generator object: just created, suspended at the [yield] with the
    rest of the enumeration still to come, or finished. *)
Inductive generator :=
| Created
| Suspended (i : Z) (rest : list monitor)
| Finished.

(** What one [next()] gives the consumer. *)
Inductive item :=
| Yield (fname : string)
| StopIteration
| Throw (e : exn).

(** Run the loop from index [i] until a [yield], the end of the
    enumeration, or an exception. *)
Fixpoint save_resume (i : Z) (rest : list monitor) (w : world)
  : item * generator * world :=
  match rest with
  | [] => (StopIteration, Finished, w)
  | mon :: rest' =>
      match save_turn i mon w with
      | (Ok (Some fname), w') => (Yield fname, Suspended (i + 1) rest', w')
      | (Ok None, w') => save_resume (i + 1) rest' w'
      | (Raise e, w') => (Throw e, Finished, w')
      end
  end.

(** [next(g)] *)
Definition save_next (g : generator) (w : world) : item * generator * world :=
  match g with
  | Created =>
      match enum_display_monitors screen with
      | Ok mons => save_resume 0 mons w
      | Raise e => (Throw e, Finished, w)
      end
  | Suspended i rest => save_resume i rest w
  | Finished => (StopIteration, Finished, w)
  end.

(** [list(g)], pulling at most [fuel] times: the paths yielded, and the
    exception that ended the run if one did.  [None] as the first component
    means the fuel ran out. *)
Fixpoint drain (fuel : nat) (g : generator) (w : world)
  : option (list string * option exn * world) :=
  match fuel with
  | O => None
  | S fuel' =>
      match save_next g w with
      | (Yield fname, g', w') =>
          match drain fuel' g' w' with
          | Some (names, e, w'') => Some (fname :: names, e, w'')
          | None => None
          end
      | (StopIteration, _, w') => Some ([], None, w')
      | (Throw e, _, w') => Some ([], Some e, w')
      end
  end.

(** The whole loop over an enumeration, consumed to its end. *)
Fixpoint save_loop (i : Z) (rest : list monitor) (w : world)
  : list string * option exn * world :=
  match rest with
  | [] => ([], None, w)
  | mon :: rest' =>
      match save_turn i mon w with
      | (Ok (Some fname), w') =>
          let '(names, e, w'') := save_loop (i + 1) rest' w' in
          (fname :: names, e, w'')
      | (Ok None, w') => save_loop (i + 1) rest' w'
      | (Raise e, w') => ([], Some e, w')
      end
  end.

(** [list(self.save(output, screen, callback))] *)
Definition save (w : world) : list string * option exn * world :=
  match enum_display_monitors screen with
  | Ok mons => save_loop 0 mons w
  | Raise e => ([], Some e, w)
  end.

End Program.

(** ** Names for the locals of [to_png] *)

(** The local [line]. *)
Definition line_of (width : Z) : Z := Z.land (width * 3 + 3) (-4).

(** The local [padding], from [line]. *)
Definition padding_of (line : Z) : Z :=
  if line mod 8 =? 0 then 0 else (line mod 8) / 2.

(** The slice [data[y * line:y * line + line - padding]] taken for row [y]. *)
Definition row_slice (data : bytes) (width y : Z) : bytes :=
  let line := line_of width in
  py_slice data (y * line) (y * line + line - padding_of line).

(** The local [scanlines]. *)
Definition scanlines_of (data : bytes) (width height : Z) : bytes :=
  b_join (map (fun y => [x00] ++ row_slice data width y) (py_range height)).

(** ** What the specification names *)

(** [round_up n k]: [n] rounded up to a multiple of [k]. *)
Definition round_up (n k : Z) : Z := (n + k - 1) / k * k.

(** Row [y] of a packed RGB buffer [width] pixels wide. *)
Definition pixel_row (data : bytes) (width : Z) (y : nat) : bytes :=
  firstn (Z.to_nat (3 * width)) (skipn (y * Z.to_nat (3 * width)) data).

(** The fixed file signature. *)
Definition signature : bytes := [x89; x50; x4e; x47; x0d; x0a; x1a; x0a].

(** A chunk as the specification frames it:
    [length (4 bytes, big-endian) ‖ type ‖ payload ‖ crc32 (type ‖ payload)]. *)
Definition chunk (tag payload : bytes) : bytes :=
  big_endian 4 (len payload) ++ tag ++ payload ++ big_endian 4 (crc32 (tag ++ payload)).

(** The header payload as the specification lists it. *)
Definition header_payload (width height : Z) : bytes :=
  big_endian 4 width ++ big_endian 4 height ++ [x08; x02; x00; x00; x00].

(** A decoder's reading of a big-endian unsigned integer. *)
Definition read_be (s : bytes) : Z :=
  fold_left (fun acc b => acc * 256 + Z_of_byte b) s 0.

(** A decoder's reading of one chunk at the head of [s]: its type, its
    payload, the checksum stored after the payload, and what follows. *)
Definition read_chunk (s : bytes) : option (bytes * bytes * Z * bytes) :=
  let n := Z.to_nat (read_be (firstn 4 s)) in
  if (length s <? 12 + n)%nat then None
  else Some (firstn 4 (skipn 4 s),
             firstn n (skipn 8 s),
             read_be (firstn 4 (skipn (8 + n) s)),
             skipn (12 + n) s).

(** A decoder's reading of the header payload: width, height and the five
    one-byte fields. *)
Definition read_header (payload : bytes) : option (Z * Z * list Z) :=
  if (length payload =? 13)%nat then
    Some (read_be (firstn 4 payload),
          read_be (firstn 4 (skipn 4 payload)),
          map Z_of_byte (skipn 8 payload))
  else None.

(** The four writes of [to_png] and what follows its [with] block, for
    the pieces [magic], [ihdr], [idat] and [iend] once joined. *)
Definition dump (output : string) (magic ihdr idat iend : bytes) : M unit :=
  c ← with_open output (fun fileh =>
        write fileh magic;;
        write fileh ihdr;;
        write fileh idat;;
        write fileh iend;;
        mret Return);
  match c with
  | Return => mret tt
  | Normal =>
      let err := "Error writing data to " +:+ dquote +:+ output +:+ dquote +:+ "." in
      raise (ScreenshotError err)
  end.

(** The values [struct.pack] accepts for the code [I]. *)
Definition fits_I (v : Z) : bool := (0 <=? v) && (v <? 2 ^ 32).

(** The chunks [to_png] writes, joined. *)
Definition ihdr_of (width height : Z) : bytes :=
  chunk (b_lit "IHDR") (header_payload width height).
Definition idat_of (compress : bytes -> bytes) (data : bytes) (width height : Z) : bytes :=
  chunk (b_lit "IDAT") (compress (scanlines_of data width height)).
Definition iend_of : bytes := chunk (b_lit "IEND") [].

(** When the three [struct.pack] calls on caller data go through. *)
Definition packs (compress : bytes -> bytes) (data : bytes) (width height : Z) : bool :=
  fits_I width && fits_I height && fits_I (len (compress (scanlines_of data width height))).

(** The image file: signature, header chunk, data chunk, trailer chunk. *)
Definition png_image (compress : bytes -> bytes) (data : bytes) (width height : Z) : bytes :=
  signature ++ ihdr_of width height ++ idat_of compress data width height ++ iend_of.

(** No failure among the coming four writes. *)
Definition writes_succeed (w : world) : bool :=
  negb (existsb (fun f => f) (firstn 4 (faults w))).

(** The path [save] computes for the monitor at index [i]. *)
Definition fname_of (output : string) (i : Z) : string :=
  if py_in "%d" output then replace_pct_d output (str (i + 1)) else output.

(** The specification's selection rule for the monitor at index [i]. *)
Definition selected (screen i : Z) : Prop :=
  screen <= 0 \/ (screen > 0 /\ i + 1 = screen).

#[global] Instance selected_dec (screen i : Z) : Decision (selected screen i).
Proof.
  unfold selected.
  destruct (Z_le_dec screen 0); [left; auto |].
  destruct (Z.eq_dec (i + 1) screen); [left; right; lia | right; lia].
Defined.

(** [enumerate(mons)], counting from [i]. *)
Fixpoint enumerate_from (i : Z) (mons : list monitor) : list (Z * monitor) :=
  match mons with
  | [] => []
  | mon :: rest => (i, mon) :: enumerate_from (i + 1) rest
  end.

(** The indexed monitors the selection rule keeps, in enumeration order. *)
Definition chosen_from (screen i : Z) (mons : list monitor) : list (Z * monitor) :=
  filter (fun im => selected screen im.1) (enumerate_from i mons).

(** The monitors whose pixels were requested, oldest first. *)
Definition captured (l : list event) : list monitor :=
  flat_map (fun e => match e with Captured mon => [mon] | Called _ _ => [] end) l.

(** The two collaborator calls of one turn, as logged. *)
Definition turn_trace (output : string) (callback : string -> bool) (im : Z * monitor)
  : list event :=
  let fname := fname_of output im.1 in
  [Called fname (callback fname); Captured im.2].

(** ** Scenarios *)

(** A stand-in for [zlib.compress] in the scenarios below: it leaves the
    scanlines as they are. *)
Definition uncompressed (s : bytes) : bytes := s.

(** An empty disk on which every [open] and [write] succeeds. *)
Definition fresh : world := World ∅ ∅ [] [].

(** One row of eight pixels. *)
Definition pixels : bytes := repeat x07 24.

(** A backend with two monitors side by side, each one row of eight
    pixels. *)
Definition mon1 : monitor := Monitor 0 0 8 1.
Definition mon2 : monitor := Monitor 8 0 8 1.
Definition two_monitors : Backend := {|
  enum_display_monitors := fun _ => Ok [mon1; mon2];
  get_pixels := fun _ => Ok pixels
|}.

(** A backend that enumerates the same two monitors and inherits
    [get_pixels] from the base class. *)
Definition two_monitors_no_pixels : Backend := {|
  enum_display_monitors := fun _ => Ok [mon1; mon2];
  get_pixels := get_pixels (Backend := MSS)
|}.

(** The default callback, [lambda *x: True]. *)
Definition accept_all (fname : string) : bool := true.

(** A callback that declines the first monitor's file. *)
Definition refuse_first (fname : string) : bool :=
  negb (String.eqb fname "screenshot-1.png").

(** Two worlds with the same disk and the same captures so far; the
    callback's logged answers may differ. *)
Definition alike (w1 w2 : world) : Prop :=
  files w1 = files w2 /\ denied w1 = denied w2 /\ faults w1 = faults w2 /\
  captured (log w1) = captured (log w2).

(** ** The factory [mss] and [arch] *)

(** [c.lower()] on an ASCII character. *)
Definition lower_ascii (c : ascii) : ascii :=
  let n := nat_of_ascii c in
  if ((65 <=? n) && (n <=? 90))%nat then ascii_of_nat (n + 32) else c.

(** [s.lower()], for the ASCII names [platform.system()] returns. *)
Fixpoint lower (s : string) : string :=
  match s with
  | EmptyString => EmptyString
  | String c rest => String (lower_ascii c) (lower rest)
  end.

(** The system specific classes the factory imports. *)
Inductive mss_class := MSSMac | MSSLinux | MSSWindows.

(** The factory [mss], given what [platform.system()] returns: the class
    it instantiates with its arguments, or the error it raises. *)
Definition mss (system : string) : result mss_class :=
  let operating_system := lower system in
  if String.eqb operating_system "darwin" then Ok MSSMac
  else if String.eqb operating_system "linux" then Ok MSSLinux
  else if String.eqb operating_system "windows" then Ok MSSWindows
  else
    let err := "System " +:+ dquote +:+ operating_system +:+ dquote
               +:+ " not implemented." in
    Raise (ScreenshotError err).

(** The name under which the factory knows each class. *)
Definition system_name (c : mss_class) : string :=
  match c with
  | MSSMac => "darwin"
  | MSSLinux => "linux"
  | MSSWindows => "windows"
  end.

(** [arch()], given [sys.maxsize]. *)
Definition arch (maxsize : Z) : Z := if maxsize >? 2 ^ 32 then 64 else 32.

(** * Proofs *)

Example crc32_IEND : crc32 (b_lit "IEND") = 0xAE426082.
Proof. vm_compute. reflexivity. Qed.

Example pack_I_13 : pack [fmt_I] [13] = Ok [x00; x00; x00; x0d].
Proof. reflexivity. Qed.

Example pack_I_negative : pack [fmt_I] [-1] = Raise StructError.
Proof. reflexivity. Qed.

Example py_slice_clamps : py_slice [x01; x02; x03] 2 8 = [x03].
Proof. reflexivity. Qed.

Example py_slice_from_end : py_slice [x01; x02; x03] (-2) 3 = [x02; x03].
Proof. reflexivity. Qed.

Example replace_screenshot : replace_pct_d "screenshot-%d.png" (str 12) = "screenshot-12.png".
Proof. reflexivity. Qed.

(** ** Stride and padding *)

Lemma land_minus_4_shift (x : Z) : Z.land x (-4) = Z.shiftl (Z.shiftr x 2) 2.
Proof.
  apply Z.bits_inj'. intros n Hn.
  rewrite Z.land_spec.
  change (-4) with (- (Z.succ 3)).
  rewrite Z.bits_opp, Z.pred_succ by lia.
  change 3 with (Z.ones 2).
  rewrite Z.testbit_ones_nonneg by lia.
  destruct (Z.ltb_spec n 2).
  - rewrite Z.shiftl_spec_low by lia. apply andb_false_r.
  - rewrite Z.shiftl_spec, Z.shiftr_spec by lia.
    replace (n - 2 + 2) with n by lia. apply andb_true_r.
Qed.

Lemma land_minus_4 (x : Z) : Z.land x (-4) = 4 * (x / 4).
Proof.
  rewrite land_minus_4_shift, Z.shiftl_mul_pow2, Z.shiftr_div_pow2 by lia.
  change (2 ^ 2) with 4. lia.
Qed.

Lemma line_of_round_up (width : Z) : line_of width = round_up (width * 3) 4.
Proof.
  unfold line_of, round_up. rewrite land_minus_4. 
  replace (width * 3 + 4 - 1) with (width * 3 + 3) by lia. lia.
Qed.

Lemma line_of_bounds (width : Z) :
  (4 | line_of width) /\ width * 3 <= line_of width < width * 3 + 4.
Proof.
  unfold line_of. rewrite land_minus_4. split.
  - exists ((width * 3 + 3) / 4). lia.
  - pose proof (Z.div_mod (width * 3 + 3) 4 ltac:(lia)).
    pose proof (Z.mod_pos_bound (width * 3 + 3) 4 ltac:(lia)). lia.
Qed.

Lemma line_of_mod_8 (width : Z) :
  line_of width mod 8 = 0 \/ line_of width mod 8 = 4.
Proof.
  destruct (line_of_bounds width) as [[k Hk] _]. rewrite Hk.
  replace (k * 4) with (4 * k) by lia.
  change 8 with (4 * 2). rewrite Zmult_mod_distr_l.
  pose proof (Z.mod_pos_bound k 2 ltac:(lia)). lia.
Qed.

Lemma padding_of_rule (line : Z) :
  ((8 | line) -> padding_of line = 0) /\
  (~ (8 | line) -> padding_of line = line mod 8 / 2).
Proof.
  unfold padding_of. destruct (Z.eqb_spec (line mod 8) 0) as [H | H]; split; intros D;
    try reflexivity.
  - exfalso. apply D. apply Z.mod_divide; [lia | exact H].
  - exfalso. apply H. apply Z.mod_divide in D; [exact D | lia].
Qed.

Lemma padding_0_or_2 (width : Z) :
  padding_of (line_of width) = 0 \/ padding_of (line_of width) = 2.
Proof.
  unfold padding_of. destruct (line_of_mod_8 width) as [-> | ->]; [left | right]; reflexivity.
Qed.

(** ** Slices *)

Lemma py_slice_nonneg {A} (s : list A) (lo hi : Z) :
  0 <= lo <= hi ->
  py_slice s lo hi = firstn (Z.to_nat (hi - lo)) (skipn (Z.to_nat lo) s).
Proof.
  intros H. unfold py_slice, slice_bound, len.
  destruct (Z.ltb_spec lo 0); [lia |]. destruct (Z.ltb_spec hi 0); [lia |].
  destruct (Z.le_gt_cases lo (Z.of_nat (length s))) as [Hlo | Hlo].
  - rewrite (Z.min_l lo) by lia.
    destruct (Z.le_gt_cases hi (Z.of_nat (length s))) as [Hhi | Hhi].
    + rewrite Z.min_l by lia. reflexivity.
    + rewrite Z.min_r by lia.
      rewrite !firstn_all2; [reflexivity | |]; rewrite length_skipn; lia.
  - rewrite !Z.min_r by lia. rewrite Z.sub_diag, Nat2Z.id. simpl.
    rewrite !skipn_all2 by lia. rewrite !firstn_nil. reflexivity.
Qed.

Lemma py_range_seq (n : Z) : py_range n = map Z.of_nat (seq 0 (Z.to_nat n)).
Proof. reflexivity. Qed.

Lemma padding_le_line (width : Z) :
  0 <= width -> 0 <= padding_of (line_of width) <= line_of width.
Proof.
  intros Hw. pose proof (line_of_bounds width) as [[k Hk] Hb].
  destruct (Z.eq_dec (line_of width) 0) as [-> | Hne]; [vm_compute; split; discriminate |].
  destruct (padding_0_or_2 width) as [-> | ->]; lia.
Qed.

Lemma row_slice_nonneg (data : bytes) (width : Z) (y : nat) :
  0 <= width ->
  row_slice data width (Z.of_nat y) =
  firstn (Z.to_nat (line_of width - padding_of (line_of width)))
         (skipn (y * Z.to_nat (line_of width)) data).
Proof.
  intros Hw. unfold row_slice.
  pose proof (padding_le_line width Hw). pose proof (line_of_bounds width) as [_ Hb].
  rewrite py_slice_nonneg by nia.
  f_equal; [f_equal; lia |].
  f_equal. rewrite Z2Nat.inj_mul, Nat2Z.id by lia. reflexivity.
Qed.

Lemma scanlines_of_rows (data : bytes) (width height : Z) :
  0 <= width ->
  scanlines_of data width height =
  concat (map (fun y : nat =>
                 x00 :: firstn (Z.to_nat (line_of width - padding_of (line_of width)))
                               (skipn (y * Z.to_nat (line_of width)) data))
              (seq 0 (Z.to_nat height))).
Proof.
  intros Hw. unfold scanlines_of, b_join. rewrite py_range_seq, map_map.
  f_equal. apply map_ext. intros y. rewrite row_slice_nonneg by assumption. reflexivity.
Qed.

(** C4: for a non-negative width the stride [line] of [to_png] is
    [round_up (width * 3) 4], that is the least multiple of [4] not below
    [width * 3]; the padding is [0] when the stride is a multiple of [8]
    and [(stride mod 8) / 2] otherwise; and the scanline block is, for the
    rows [y = 0 .. height - 1] in order, one filter byte [0] followed by
    [data[y * stride : y * stride + stride - padding]]. *)
Theorem stride_padding_scanlines (data : bytes) (width height : Z) :
  0 <= width ->
  let stride := line_of width in
  let padding := padding_of stride in
  stride = round_up (width * 3) 4 /\
  ((4 | stride) /\ width * 3 <= stride < width * 3 + 4) /\
  ((8 | stride) -> padding = 0) /\
  (~ (8 | stride) -> padding = stride mod 8 / 2) /\
  scanlines_of data width height =
    concat (map (fun y : nat =>
                   x00 :: firstn (Z.to_nat (stride - padding))
                                 (skipn (y * Z.to_nat stride) data))
                (seq 0 (Z.to_nat height))).
Proof.
  intros Hw stride padding. subst stride padding.
  split; [apply line_of_round_up |].
  split; [apply line_of_bounds |].
  split; [apply padding_of_rule |].
  split; [apply padding_of_rule |].
  apply scanlines_of_rows. exact Hw.
Qed.

Lemma stride_padding_scanlines_witness :
  0 <= 2 /\
  line_of 2 = 8 /\ padding_of (line_of 2) = 0 /\
  scanlines_of [x01; x02; x03; x04; x05; x06; x07; x08; x09; x0a; x0b; x0c] 2 2 =
    [x00; x01; x02; x03; x04; x05; x06; x07; x08; x00; x09; x0a; x0b; x0c].
Proof.
  split; [lia |].
  pose proof (stride_padding_scanlines
                [x01; x02; x03; x04; x05; x06; x07; x08; x09; x0a; x0b; x0c] 2 2
                ltac:(lia)) as H.
  cbv zeta in H. destruct H as (_ & _ & _ & _ & H).
  split; [reflexivity |]. split; [reflexivity |].
  rewrite H. reflexivity.
Defined.

(** ** Widths that are multiples of 8 *)

Lemma line_of_multiple_of_8 (width : Z) :
  (8 | width) -> line_of width = width * 3 /\ padding_of (line_of width) = 0.
Proof.
  intros [k ->]. assert (line_of (k * 8) = k * 8 * 3) as E.
  { unfold line_of. rewrite land_minus_4.
    replace (k * 8 * 3 + 3) with (3 + (6 * k) * 4) by lia.
    rewrite Z.div_add by lia. change (3 / 4) with 0. lia. }
  split; [exact E |].
  rewrite E. unfold padding_of.
  replace (k * 8 * 3) with ((3 * k) * 8) by lia. rewrite Z.mod_mul by lia. reflexivity.
Qed.

Lemma concat_rows_take {A} (l : list A) (k n : nat) :
  concat (map (fun y : nat => firstn k (skipn (y * k) l)) (seq 0 n)) = firstn (n * k) l.
Proof.
  induction n as [| n IH]; [reflexivity |].
  rewrite seq_S, map_app, concat_app, IH. simpl.
  rewrite app_nil_r, take_take_drop. f_equal. lia.
Qed.

Lemma pixel_row_length (data : bytes) (width : Z) (y : nat) :
  0 <= width -> (S y * Z.to_nat (3 * width) <= length data)%nat ->
  len (pixel_row data width y) = width * 3.
Proof.
  intros Hw Hy. unfold pixel_row, len.
  rewrite length_firstn, length_skipn.
  remember (Z.to_nat (3 * width)) as k eqn:Ek.
  assert (y * k + k <= length data)%nat as Hy' by lia. clear Hy.
  remember (y * k)%nat as o eqn:Eo. clear Eo.
  rewrite Nat.min_l by lia. lia.
Qed.

(** C10: when [width] is a multiple of [8] and the buffer holds exactly
    [width * height * 3] bytes, the stride is [width * 3] and the padding
    [0]; the slice taken for row [y] is exactly the [y]-th pixel row,
    [width * 3] bytes long; the row slices put end to end are the buffer
    itself, so the scanline block is the buffer with one filter byte before
    each row.  And whatever the width, the stride is a multiple of [4] and
    the padding is [0] or [2]. *)
Theorem rows_exact_for_multiple_of_8 (data : bytes) (width height : Z) :
  0 <= width -> 0 <= height ->
  (8 | width) ->
  len data = width * height * 3 ->
  (line_of width = width * 3 /\ padding_of (line_of width) = 0) /\
  (forall y : nat, (y < Z.to_nat height)%nat ->
     row_slice data width (Z.of_nat y) = pixel_row data width y /\
     len (row_slice data width (Z.of_nat y)) = width * 3) /\
  b_join (map (row_slice data width) (py_range height)) = data /\
  scanlines_of data width height =
    concat (map (fun y : nat => x00 :: pixel_row data width y) (seq 0 (Z.to_nat height))) /\
  len (scanlines_of data width height) = len data + height /\
  (forall any_width : Z,
     (4 | line_of any_width) /\
     (padding_of (line_of any_width) = 0 \/ padding_of (line_of any_width) = 2)).
Proof.
  intros Hw Hh H8 Hlen.
  destruct (line_of_multiple_of_8 width H8) as [Hline Hpad].
  assert (forall y : nat, row_slice data width (Z.of_nat y) = pixel_row data width y) as Hrow.
  { intros y. rewrite row_slice_nonneg by assumption. unfold pixel_row.
    rewrite Hpad, Hline, Z.sub_0_r, (Z.mul_comm width 3). reflexivity. }
  assert (b_join (map (row_slice data width) (py_range height)) = data) as Hall.
  { unfold b_join. rewrite py_range_seq, map_map.
    rewrite (map_ext _ (fun y : nat =>
               firstn (Z.to_nat (3 * width)) (skipn (y * Z.to_nat (3 * width)) data)))
      by (intros y; apply Hrow).
    rewrite concat_rows_take. apply firstn_all2. unfold len in Hlen. nia. }
  assert (scanlines_of data width height =
          concat (map (fun y : nat => x00 :: pixel_row data width y)
                      (seq 0 (Z.to_nat height)))) as Hscan.
  { unfold scanlines_of, b_join. rewrite py_range_seq, map_map.
    f_equal. apply map_ext. intros y. rewrite Hrow. reflexivity. }
  split; [split; assumption |].
  split.
  { intros y Hy. rewrite Hrow. split; [reflexivity |].
    apply pixel_row_length; [assumption |]. unfold len in Hlen. nia. }
  split; [exact Hall |].
  split; [exact Hscan |].
  split.
  { rewrite <- Hall at 2. unfold scanlines_of, b_join, len.
    rewrite py_range_seq, !map_map.
    assert (forall l : list nat,
              Z.of_nat (length (concat (map (fun y : nat =>
                 [x00] ++ row_slice data width (Z.of_nat y)) l))) =
              Z.of_nat (length (concat (map (fun y : nat =>
                 row_slice data width (Z.of_nat y)) l))) + Z.of_nat (length l)) as Hl.
    { induction l as [| y l IH]; [reflexivity |].
      simpl in IH |- *. rewrite !length_app. lia. }
    rewrite Hl, length_seq. lia. }
  intros any_width. split; [apply line_of_bounds | apply padding_0_or_2].
Qed.

Lemma rows_exact_for_multiple_of_8_witness :
  let data := repeat x07 24 in
  (0 <= 8 /\ 0 <= 1 /\ (8 | 8) /\ len data = 8 * 1 * 3) /\
  scanlines_of data 8 1 = x00 :: data.
Proof.
  intros data.
  assert (0 <= 8) as Hw by lia. assert (0 <= 1) as Hh by lia.
  assert ((8 | 8)) as H8 by (exists 1; reflexivity).
  assert (len data = 8 * 1 * 3) as Hlen by reflexivity.
  split; [repeat split; assumption |].
  destruct (rows_exact_for_multiple_of_8 data 8 1 Hw Hh H8 Hlen) as (_ & _ & _ & H & _).
  rewrite H. reflexivity.
Defined.

(** ** Packing and reading back *)

Arguments big_endian : simpl never.
Arguments crc32 : simpl never.

Lemma pack_I_fits (v : Z) : fits_I v = true -> pack [fmt_I] [v] = Ok (big_endian 4 v).
Proof.
  unfold fits_I. intros H. simpl. rewrite H. rewrite app_nil_r. reflexivity.
Qed.

Lemma pack_I_unfit (v : Z) : fits_I v = false -> pack [fmt_I] [v] = Raise StructError.
Proof. unfold fits_I. intros H. simpl. rewrite H. reflexivity. Qed.

Lemma land_mask_fits (x : Z) : fits_I (Z.land x 0xffffffff) = true.
Proof.
  unfold fits_I. change 0xffffffff with (Z.ones 32).
  rewrite Z.land_ones by lia.
  pose proof (Z.mod_pos_bound x (2 ^ 32) ltac:(lia)).
  apply andb_true_intro. split; [apply Z.leb_le | apply Z.ltb_lt]; lia.
Qed.

Lemma land_mask_id (x : Z) : fits_I x = true -> Z.land x 0xffffffff = x.
Proof.
  unfold fits_I. intros H. apply andb_prop in H as [H1 H2].
  apply Z.leb_le in H1. apply Z.ltb_lt in H2.
  change 0xffffffff with (Z.ones 32).
  rewrite Z.land_ones by lia. apply Z.mod_small. lia.
Qed.

Lemma Z_of_byte_range (b : byte) : 0 <= Z_of_byte b < 256.
Proof.
  unfold Z_of_byte. pose proof (Byte.to_N_bounded b) as H. lia.
Qed.

Lemma Z_of_byte_of_Z (n : Z) : 0 <= n < 256 -> Z_of_byte (byte_of_Z n) = n.
Proof.
  intros H. unfold Z_of_byte, byte_of_Z.
  destruct (Byte.of_N (Z.to_N n)) as [b |] eqn:E.
  - apply Byte.to_of_N in E. rewrite E. lia.
  - apply Byte.of_N_None_iff in E. lia.
Qed.

Lemma fold_read_be (s : bytes) (acc : Z) :
  fold_left (fun a b => a * 256 + Z_of_byte b) s acc = acc * 256 ^ len s + read_be s.
Proof.
  unfold read_be, len. revert acc. induction s as [| b s IH]; intros acc.
  - simpl. lia.
  - simpl fold_left. rewrite IH, (IH (0 * 256 + Z_of_byte b)).
    rewrite length_cons, Nat2Z.inj_succ, Z.pow_succ_r by lia. lia.
Qed.

Lemma read_be_cons (b : byte) (s : bytes) :
  read_be (b :: s) = Z_of_byte b * 256 ^ len s + read_be s.
Proof. unfold read_be at 1. simpl fold_left. rewrite fold_read_be. lia. Qed.

Lemma big_endian_length (n : nat) (v : Z) : length (big_endian n v) = n.
Proof.
  induction n as [| n IH]; [reflexivity |].
  unfold big_endian; fold big_endian. simpl. rewrite IH. reflexivity.
Qed.

Lemma read_be_big_endian (n : nat) (v : Z) :
  read_be (big_endian n v) = v mod 256 ^ Z.of_nat n.
Proof.
  induction n as [| n IH].
  - simpl. rewrite Z.mod_1_r. reflexivity.
  - unfold big_endian; fold big_endian.
    rewrite read_be_cons, IH. unfold len. rewrite big_endian_length.
    change 255 with (Z.ones 8). rewrite Z.land_ones, Z.shiftr_div_pow2 by lia.
    rewrite Z_of_byte_of_Z by (apply Z.mod_pos_bound; lia).
    rewrite Nat2Z.inj_succ, Z.pow_succ_r by lia.
    replace (2 ^ (8 * Z.of_nat n)) with (256 ^ Z.of_nat n)
      by (change 256 with (2 ^ 8); rewrite <- Z.pow_mul_r by lia; reflexivity).
    change (2 ^ 8) with 256.
    rewrite (Z.mul_comm 256 (256 ^ Z.of_nat n)).
    rewrite (Z.rem_mul_r v (256 ^ Z.of_nat n) 256) by lia. lia.
Qed.

Lemma read_be_big_endian_4 (v : Z) : fits_I v = true -> read_be (big_endian 4 v) = v.
Proof.
  unfold fits_I. intros H. apply andb_prop in H as [H1 H2].
  apply Z.leb_le in H1. apply Z.ltb_lt in H2.
  rewrite read_be_big_endian. apply Z.mod_small.
  change (256 ^ Z.of_nat 4) with (2 ^ 32). lia.
Qed.


(** ** The checksum stays within 32 bits *)

Lemma lxor_below (a b n : Z) :
  0 <= n -> 0 <= a < 2 ^ n -> 0 <= b < 2 ^ n -> 0 <= Z.lxor a b < 2 ^ n.
Proof.
  intros Hn Ha Hb. split; [apply Z.lxor_nonneg; lia |].
  assert (Z.lxor a b mod 2 ^ n = Z.lxor a b) as E.
  { rewrite <- Z.land_ones by lia.
    rewrite <- (Z.mod_small a (2 ^ n)) at 2 by lia.
    rewrite <- (Z.mod_small b (2 ^ n)) at 2 by lia.
    rewrite <- !Z.land_ones by lia.
    apply Z.bits_inj'. intros m Hm.
    rewrite !Z.land_spec, !Z.lxor_spec, !Z.land_spec.
    destruct (Z.testbit (Z.ones n) m), (Z.testbit a m), (Z.testbit b m); reflexivity. }
  rewrite <- E. apply Z.mod_pos_bound. lia.
Qed.

Lemma crc_shift_below (c : Z) : 0 <= c < 2 ^ 32 -> 0 <= crc_shift c < 2 ^ 32.
Proof.
  intros H.
  assert (0 <= Z.shiftr c 1 < 2 ^ 32) as Hs.
  { rewrite Z.shiftr_div_pow2 by lia. change (2 ^ 1) with 2.
    pose proof (Z.div_mod c 2 ltac:(lia)). pose proof (Z.mod_pos_bound c 2 ltac:(lia)). lia. }
  unfold crc_shift. destruct (Z.testbit c 0); [| exact Hs].
  apply lxor_below; lia.
Qed.

Lemma crc_update_below (c : Z) (b : byte) :
  0 <= c < 2 ^ 32 -> 0 <= crc_update c b < 2 ^ 32.
Proof.
  intros H. unfold crc_update.
  assert (0 <= Z.lxor c (Z_of_byte b) < 2 ^ 32) as H0.
  { apply lxor_below; [lia | exact H |]. pose proof (Z_of_byte_range b). lia. }
  simpl Nat.iter. do 8 apply crc_shift_below. exact H0.
Qed.

Lemma crc32_fits (s : bytes) : fits_I (crc32 s) = true.
Proof.
  assert (forall c, 0 <= c < 2 ^ 32 -> 0 <= fold_left crc_update s c < 2 ^ 32) as H.
  { induction s as [| b s IH]; intros c Hc; [exact Hc |].
    simpl. apply IH. apply crc_update_below. exact Hc. }
  unfold crc32, fits_I.
  assert (0 <= 0xFFFFFFFF < 2 ^ 32) as Hc by (split; easy).
  pose proof (lxor_below (fold_left crc_update s 0xFFFFFFFF) 0xFFFFFFFF 32
                ltac:(lia) (H _ Hc) Hc) as [H1 H2].
  apply andb_true_intro. split; [apply Z.leb_le | apply Z.ltb_lt]; assumption.
Qed.

Lemma crc32_masked (s : bytes) : Z.land (crc32 s) 0xffffffff = crc32 s.
Proof. apply land_mask_id, crc32_fits. Qed.

(** ** [to_png], piece by piece *)

Lemma pack_header (width height : Z) :
  pack [fmt_I; fmt_I; fmt_B; fmt_B; fmt_B; fmt_B; fmt_B] [width; height; 8; 2; 0; 0; 0] =
  if fits_I width && fits_I height then Ok (header_payload width height)
  else Raise StructError.
Proof.
  unfold fits_I, header_payload. simpl.
  destruct ((0 <=? width) && (width <? 2 ^ 32)); [| reflexivity].
  destruct ((0 <=? height) && (height <? 2 ^ 32)); reflexivity.
Qed.

Lemma header_payload_length (width height : Z) : len (header_payload width height) = 13.
Proof.
  unfold header_payload, len. rewrite !length_app, !big_endian_length. reflexivity.
Qed.

Lemma join_chunk (tag payload : bytes) :
  b_join [big_endian 4 (len payload); tag; payload;
          big_endian 4 (crc32 (b_join [tag; payload]))] =
  chunk tag payload.
Proof. unfold b_join, chunk. simpl. rewrite !app_nil_r. reflexivity. Qed.

Section Pieces.

Variable compress : bytes -> bytes.

Lemma to_png_unfold (data : bytes) (width height : Z) (output : string) (w : world) :
  to_png compress data width height output w =
  if packs compress data width height then
    dump output signature (ihdr_of width height) (idat_of compress data width height)
         iend_of w
  else (Raise StructError, w).
Proof.
  unfold to_png, packs.
  change (pack [fmt_B] [0]) with (Ok (A := bytes) [x00]).
  change (pack (repeat fmt_B 8) [137; 80; 78; 71; 13; 10; 26; 10]) with (Ok signature).
  unfold mbind at 1 2. unfold M_bind at 1 2. unfold lift at 1 2. cbv beta iota zeta.
  change (b_join (map _ (py_range height))) with (scanlines_of data width height).
  unfold mbind at 1. unfold M_bind at 1. unfold lift at 1.
  rewrite pack_header.
  destruct (fits_I width && fits_I height) eqn:Ewh; [| reflexivity].
  cbv beta iota.
  unfold mbind at 1. unfold M_bind at 1. unfold lift at 1.
  rewrite (pack_I_fits _ (land_mask_fits _)). cbv beta iota.
  unfold mbind at 1. unfold M_bind at 1. unfold lift at 1.
  rewrite header_payload_length. change (pack [fmt_I] [13]) with (Ok (big_endian 4 13)).
  cbv beta iota.
  unfold mbind at 1. unfold M_bind at 1. unfold lift at 1.
  rewrite (pack_I_fits _ (land_mask_fits _)). cbv beta iota.
  unfold mbind at 1. unfold M_bind at 1. unfold lift at 1.
  destruct (fits_I (len (compress (scanlines_of data width height)))) eqn:Elen.
  - rewrite (pack_I_fits _ Elen). cbv beta iota.
    unfold mbind at 1. unfold M_bind at 1. unfold lift at 1.
    rewrite (pack_I_fits _ (land_mask_fits _)). cbv beta iota.
    unfold mbind at 1. unfold M_bind at 1. unfold lift at 1.
    change (pack [fmt_I] [len []]) with (Ok (big_endian 4 (len (@nil byte)))).
    cbv beta iota.
    rewrite !crc32_masked.
    replace (big_endian 4 13) with (big_endian 4 (len (header_payload width height)))
      by (rewrite header_payload_length; reflexivity).
    rewrite (join_chunk (b_lit "IHDR")), (join_chunk (b_lit "IDAT")).
    change (crc32 (b_lit "IEND")) with (crc32 (b_join [b_lit "IEND"; []])).
    rewrite (join_chunk (b_lit "IEND")).
    reflexivity.
  - rewrite (pack_I_unfit _ Elen). reflexivity.
Qed.

End Pieces.

(** ** The writes *)

Ltac run_dump :=
  unfold dump, with_open, open_wb, write, file_exit_swallows, raise,
    mbind, M_bind, mret, M_ret, set_files, set_faults; simpl.

Lemma dump_denied (output : string) (a b c d : bytes) (w : world) :
  output ∈ denied w -> dump output a b c d w = (Raise IOError, w).
Proof. intros H. run_dump. rewrite decide_True by exact H. reflexivity. Qed.

Lemma dump_succeeds (output : string) (a b c d : bytes) (w : world) :
  output ∉ denied w -> writes_succeed w = true ->
  dump output a b c d w =
  (Ok tt, World (<[output := a ++ b ++ c ++ d]> (files w)) (denied w)
                (skipn 4 (faults w)) (log w)).
Proof.
  intros Hd Hf. unfold writes_succeed in Hf. run_dump. rewrite decide_False by exact Hd.
  destruct w as [fs dn fl lg]. simpl in *.
  destruct fl as [| [|] [| [|] [| [|] [| [|] fl]]]]; simpl in Hf; try discriminate;
    simpl; rewrite ?lookup_insert_eq; simpl; rewrite ?insert_insert_eq;
    rewrite ?lookup_insert_eq; simpl; rewrite ?insert_insert_eq;
    rewrite ?lookup_insert_eq; simpl; rewrite ?insert_insert_eq;
    rewrite <- ?app_assoc; reflexivity.
Qed.

Lemma dump_outcome (output : string) (a b c d : bytes) (w : world) :
  exists r w',
    dump output a b c d w = (r, w') /\
    denied w' = denied w /\ log w' = log w /\
    (forall p, p ≠ output -> files w' !! p = files w !! p) /\
    ((r = Ok tt /\ (output ∉ denied w) /\ writes_succeed w = true /\
      files w' !! output = Some (a ++ b ++ c ++ d)) \/
     (r = Raise IOError /\ (output ∈ denied w \/ writes_succeed w = false))).
Proof.
  destruct (decide (output ∈ denied w)) as [Hd | Hd].
  - exists (Raise IOError), w. rewrite dump_denied by exact Hd. auto 10.
  - destruct (writes_succeed w) eqn:Hf.
    + eexists _, _. rewrite dump_succeeds by assumption.
      split; [reflexivity |]. simpl. split; [reflexivity |]. split; [reflexivity |].
      split; [intros p Hp; apply lookup_insert_ne; congruence |].
      left. rewrite lookup_insert_eq. auto.
    + unfold writes_succeed in Hf. run_dump. rewrite decide_False by exact Hd.
      destruct w as [fs dn fl lg]. simpl in *.
      destruct fl as [| [|] [| [|] [| [|] [| [|] fl]]]]; simpl in Hf; try discriminate;
        simpl; eexists _, _; (split; [reflexivity |]); simpl;
        (split; [reflexivity |]); (split; [reflexivity |]);
        (split; [intros p Hp; rewrite ?lookup_insert_ne by congruence; reflexivity |]);
        right; auto.
Qed.

Lemma dump_keeps (output : string) (a b c d : bytes) (w : world) (p : string) :
  is_Some (files w !! p) -> is_Some (files (dump output a b c d w).2 !! p).
Proof.
  intros Hp. destruct (decide (p = output)) as [-> | Hne].
  - run_dump. destruct (decide (output ∈ denied w)); [exact Hp |].
    destruct w as [fs dn fl lg]. simpl in *.
    destruct fl as [| [|] [| [|] [| [|] [| [|] fl]]]]; simpl;
      rewrite ?lookup_insert_eq; eauto.
  - destruct (dump_outcome output a b c d w) as (r & w' & E & _ & _ & Hframe & _).
    rewrite E. simpl. rewrite Hframe by exact Hne. exact Hp.
Qed.

(** ** Reading the chunks back *)

Lemma skip_two {A} (l1 l2 rest : list A) (n : nat) :
  n = (length l1 + length l2)%nat -> skipn n (l1 ++ l2 ++ rest) = rest.
Proof.
  intros ->. rewrite app_assoc. apply drop_app_length'. rewrite length_app. reflexivity.
Qed.

Lemma skip_three {A} (l1 l2 l3 rest : list A) (n : nat) :
  n = (length l1 + length l2 + length l3)%nat -> skipn n (l1 ++ l2 ++ l3 ++ rest) = rest.
Proof.
  intros ->. rewrite 2!app_assoc. apply drop_app_length'. rewrite !length_app. reflexivity.
Qed.

Lemma skip_four {A} (l1 l2 l3 l4 rest : list A) (n : nat) :
  n = (length l1 + length l2 + length l3 + length l4)%nat ->
  skipn n (l1 ++ l2 ++ l3 ++ l4 ++ rest) = rest.
Proof.
  intros ->. rewrite 3!app_assoc. apply drop_app_length'. rewrite !length_app. reflexivity.
Qed.

Lemma read_chunk_parts (size tag payload sum rest : bytes) :
  length size = 4%nat -> length tag = 4%nat -> length sum = 4%nat ->
  read_be size = len payload ->
  read_chunk (size ++ tag ++ payload ++ sum ++ rest) =
  Some (tag, payload, read_be sum, rest).
Proof.
  intros Hsize Htag Hsum Hread. unfold read_chunk.
  rewrite (take_app_length' size) by congruence.
  rewrite Hread. unfold len. rewrite Nat2Z.id.
  destruct (Nat.ltb_spec (length (size ++ tag ++ payload ++ sum ++ rest))
                         (12 + length payload)) as [Hlt | _].
  { rewrite !length_app, Hsize, Htag, Hsum in Hlt. lia. }
  rewrite (drop_app_length' size) by congruence.
  rewrite (take_app_length' tag) by congruence.
  rewrite (skip_two size tag) by (rewrite Hsize, Htag; reflexivity).
  rewrite (take_app_length' payload) by reflexivity.
  rewrite (skip_three size tag payload) by (rewrite Hsize, Htag; reflexivity).
  rewrite (take_app_length' sum) by congruence.
  rewrite (skip_four size tag payload sum) by (rewrite Hsize, Htag, Hsum; lia).
  reflexivity.
Qed.

Lemma read_chunk_chunk (tag payload rest : bytes) :
  length tag = 4%nat -> fits_I (len payload) = true ->
  read_chunk (chunk tag payload ++ rest) =
  Some (tag, payload, crc32 (tag ++ payload), rest).
Proof.
  intros Htag Hfit. unfold chunk. rewrite <- !app_assoc.
  rewrite read_chunk_parts;
    [| apply big_endian_length | exact Htag | apply big_endian_length
     | apply read_be_big_endian_4; exact Hfit ].
  rewrite read_be_big_endian_4 by apply crc32_fits. reflexivity.
Qed.

Lemma read_header_payload (width height : Z) :
  fits_I width = true -> fits_I height = true ->
  read_header (header_payload width height) = Some (width, height, [8; 2; 0; 0; 0]).
Proof.
  intros Hw Hh. unfold read_header, header_payload.
  rewrite !length_app, !big_endian_length. simpl Nat.eqb. cbv iota.
  rewrite (take_app_length' (big_endian 4 width)) by (rewrite big_endian_length; reflexivity).
  rewrite (drop_app_length' (big_endian 4 width)) by (rewrite big_endian_length; reflexivity).
  rewrite (take_app_length' (big_endian 4 height)) by (rewrite big_endian_length; reflexivity).
  rewrite (skip_two (big_endian 4 width) (big_endian 4 height) _ 8)
    by (rewrite !big_endian_length; reflexivity).
  rewrite !read_be_big_endian_4 by assumption. reflexivity.
Qed.

(** ** [to_png] as a whole *)

Section Encoder.

Variable compress : bytes -> bytes.

Lemma to_png_succeeds (data : bytes) (width height : Z) (output : string) (w : world) :
  packs compress data width height = true ->
  output ∉ denied w -> writes_succeed w = true ->
  to_png compress data width height output w =
  (Ok tt, World (<[output := png_image compress data width height]> (files w)) (denied w)
                (skipn 4 (faults w)) (log w)).
Proof.
  intros Hp Hd Hf. rewrite to_png_unfold, Hp. apply dump_succeeds; assumption.
Qed.

Lemma to_png_outcome (data : bytes) (width height : Z) (output : string) (w : world) :
  exists r w',
    to_png compress data width height output w = (r, w') /\
    denied w' = denied w /\ log w' = log w /\
    (forall p, p ≠ output -> files w' !! p = files w !! p) /\
    ((r = Ok tt /\ packs compress data width height = true /\
      (output ∉ denied w) /\ writes_succeed w = true /\
      files w' !! output = Some (png_image compress data width height)) \/
     (r = Raise StructError /\ packs compress data width height = false /\ w' = w) \/
     (r = Raise IOError /\ packs compress data width height = true /\
      (output ∈ denied w \/ writes_succeed w = false))).
Proof.
  rewrite to_png_unfold. destruct (packs compress data width height) eqn:Hp.
  - destruct (dump_outcome output signature (ihdr_of width height)
                (idat_of compress data width height) iend_of w)
      as (r & w' & E & Hden & Hlog & Hframe & Hcase).
    exists r, w'. rewrite E. repeat (split; [assumption || reflexivity |]).
    destruct Hcase as [(-> & ? & ? & ?) | (-> & ?)]; [left | right; right]; auto.
  - exists (Raise StructError), w. repeat (split; [reflexivity |]). right; left. auto.
Qed.

Lemma to_png_returned (data : bytes) (width height : Z) (output : string) (w w' : world) :
  to_png compress data width height output w = (Ok tt, w') ->
  packs compress data width height = true /\
  files w' !! output = Some (png_image compress data width height).
Proof.
  intros E.
  destruct (to_png_outcome data width height output w)
    as (r & w1 & E1 & _ & _ & _ & Hcase).
  rewrite E in E1. injection E1 as <- <-.
  destruct Hcase as [(_ & ? & _ & _ & ?) | [(? & _) | (? & _)]]; [auto | discriminate ..].
Qed.

Lemma to_png_keeps (data : bytes) (width height : Z) (output : string) (w : world)
  (p : string) :
  is_Some (files w !! p) ->
  is_Some (files (to_png compress data width height output w).2 !! p).
Proof.
  intros Hp. rewrite to_png_unfold.
  destruct (packs compress data width height); [apply dump_keeps |]; exact Hp.
Qed.

Lemma packs_fits (data : bytes) (width height : Z) :
  packs compress data width height = true ->
  fits_I width = true /\ fits_I height = true /\
  fits_I (len (compress (scanlines_of data width height))) = true.
Proof.
  unfold packs. intros H. apply andb_prop in H as [H H3]. apply andb_prop in H as [H1 H2].
  auto.
Qed.

(** C9: [to_png] ends in one of three ways: it returns, or [struct.pack]
    raises, or [open] or a [write] raises.  The [raise ScreenshotError]
    after the [with] block is never reached, whatever the input and
    whatever the outcome of the writes. *)
Theorem to_png_never_raises_ScreenshotError
  (data : bytes) (width height : Z) (output : string) (w : world) :
  let r := fst (to_png compress data width height output w) in
  (r = Ok tt \/ r = Raise StructError \/ r = Raise IOError) /\
  (forall msg, r <> Raise (ScreenshotError msg)).
Proof.
  intros r. subst r.
  destruct (to_png_outcome data width height output w)
    as (r & w' & E & _ & _ & _ & Hcase).
  rewrite E. simpl.
  destruct Hcase as [(-> & _) | [(-> & _) | (-> & _)]]; split; auto; discriminate.
Qed.

(** C6: when [to_png] returns, the first eight bytes of the file it wrote
    are 137, 80, 78, 71, 13, 10, 26, 10. *)
Theorem output_starts_with_signature
  (data : bytes) (width height : Z) (output : string) (w w' : world) :
  to_png compress data width height output w = (Ok tt, w') ->
  exists content,
    files w' !! output = Some content /\
    firstn 8 content = [x89; x50; x4e; x47; x0d; x0a; x1a; x0a] /\
    map Z_of_byte (firstn 8 content) = [137; 80; 78; 71; 13; 10; 26; 10].
Proof.
  intros E. apply to_png_returned in E as [_ E].
  exists (png_image compress data width height). split; [exact E |].
  unfold png_image, signature. simpl. split; reflexivity.
Qed.

(** C7: when [to_png] returns, the file is the signature followed by three
    chunks, each laid out as the 4-byte big-endian length of its payload, its
    4-byte type, the payload and a 4-byte big-endian checksum; a reader
    finds the header, data and trailer chunks in that order and nothing
    after them, and each stored checksum is [crc32] of type and payload. *)
Theorem chunks_framed_and_checksummed
  (data : bytes) (width height : Z) (output : string) (w w' : world) :
  to_png compress data width height output w = (Ok tt, w') ->
  let header := header_payload width height in
  let payload := compress (scanlines_of data width height) in
  exists content rest1 rest2,
    files w' !! output = Some content /\
    content = signature ++ chunk (b_lit "IHDR") header
                        ++ chunk (b_lit "IDAT") payload
                        ++ chunk (b_lit "IEND") [] /\
    read_chunk (skipn 8 content) =
      Some (b_lit "IHDR", header, crc32 (b_lit "IHDR" ++ header), rest1) /\
    read_chunk rest1 =
      Some (b_lit "IDAT", payload, crc32 (b_lit "IDAT" ++ payload), rest2) /\
    read_chunk rest2 =
      Some (b_lit "IEND", [], crc32 (b_lit "IEND" ++ []), []).
Proof.
  intros E header payload. apply to_png_returned in E as [Hp E].
  apply packs_fits in Hp as (Hw & Hh & Hl).
  exists (png_image compress data width height),
         (chunk (b_lit "IDAT") payload ++ chunk (b_lit "IEND") []),
         (chunk (b_lit "IEND") []).
  split; [exact E |]. split; [reflexivity |].
  unfold png_image, ihdr_of, idat_of, iend_of. fold header. fold payload.
  change (skipn 8 (signature ++ ?l)) with l.
  split.
  { apply read_chunk_chunk; [reflexivity |]. subst header.
    rewrite header_payload_length. reflexivity. }
  split.
  { apply read_chunk_chunk; [reflexivity | exact Hl]. }
  rewrite <- (app_nil_r (chunk (b_lit "IEND") [])) at 1.
  apply read_chunk_chunk; reflexivity.
Qed.

(** C8: when [to_png] returns, the payload of the header chunk is the
    big-endian [width] (4 bytes), the big-endian [height] (4 bytes), then
    the bytes 8, 2, 0, 0, 0; reading it back gives [width] and [height]. *)
Theorem header_round_trip
  (data : bytes) (width height : Z) (output : string) (w w' : world) :
  to_png compress data width height output w = (Ok tt, w') ->
  exists content header crc rest,
    files w' !! output = Some content /\
    read_chunk (skipn 8 content) = Some (b_lit "IHDR", header, crc, rest) /\
    header = big_endian 4 width ++ big_endian 4 height ++ [x08; x02; x00; x00; x00] /\
    read_header header = Some (width, height, [8; 2; 0; 0; 0]).
Proof.
  intros E. apply to_png_returned in E as [Hp E].
  apply packs_fits in Hp as (Hw & Hh & Hl).
  eexists (png_image compress data width height), (header_payload width height), _, _.
  split; [exact E |].
  split.
  { unfold png_image, ihdr_of. change (skipn 8 (signature ++ ?l)) with l.
    apply read_chunk_chunk; [reflexivity |].
    rewrite header_payload_length. reflexivity. }
  split; [reflexivity |].
  apply read_header_payload; assumption.
Qed.

End Encoder.

(** ** Scenarios *)

Lemma output_starts_with_signature_witness :
  exists w',
    to_png uncompressed pixels 8 1 "out.png" fresh = (Ok tt, w') /\
    exists content,
      files w' !! "out.png" = Some content /\
      firstn 8 content = [x89; x50; x4e; x47; x0d; x0a; x1a; x0a] /\
      map Z_of_byte (firstn 8 content) = [137; 80; 78; 71; 13; 10; 26; 10].
Proof.
  exists (snd (to_png uncompressed pixels 8 1 "out.png" fresh)).
  assert (to_png uncompressed pixels 8 1 "out.png" fresh =
          (Ok tt, snd (to_png uncompressed pixels 8 1 "out.png" fresh))) as E
    by (vm_compute; reflexivity).
  split; [exact E |].
  exact (output_starts_with_signature uncompressed _ _ _ _ _ _ E).
Defined.

Lemma chunks_framed_and_checksummed_witness :
  exists w' content rest1 rest2,
    to_png uncompressed pixels 8 1 "out.png" fresh = (Ok tt, w') /\
    files w' !! "out.png" = Some content /\
    content = signature ++ chunk (b_lit "IHDR") (header_payload 8 1)
                        ++ chunk (b_lit "IDAT") (x00 :: pixels)
                        ++ chunk (b_lit "IEND") [] /\
    read_chunk (skipn 8 content) =
      Some (b_lit "IHDR", header_payload 8 1,
            crc32 (b_lit "IHDR" ++ header_payload 8 1), rest1) /\
    read_chunk rest1 =
      Some (b_lit "IDAT", x00 :: pixels, crc32 (b_lit "IDAT" ++ x00 :: pixels), rest2) /\
    read_chunk rest2 = Some (b_lit "IEND", [], 0xAE426082, []).
Proof.
  exists (snd (to_png uncompressed pixels 8 1 "out.png" fresh)).
  assert (to_png uncompressed pixels 8 1 "out.png" fresh =
          (Ok tt, snd (to_png uncompressed pixels 8 1 "out.png" fresh))) as E
    by (vm_compute; reflexivity).
  destruct (chunks_framed_and_checksummed uncompressed _ _ _ _ _ _ E)
    as (content & rest1 & rest2 & H1 & H2 & H3 & H4 & H5).
  exists content, rest1, rest2.
  split; [exact E |]. split; [exact H1 |]. split; [exact H2 |].
  split; [exact H3 |]. split; [exact H4 |]. exact H5.
Defined.

Lemma header_round_trip_witness :
  exists w' content header crc rest,
    to_png uncompressed pixels 8 1 "out.png" fresh = (Ok tt, w') /\
    files w' !! "out.png" = Some content /\
    read_chunk (skipn 8 content) = Some (b_lit "IHDR", header, crc, rest) /\
    header = [x00; x00; x00; x08; x00; x00; x00; x01; x08; x02; x00; x00; x00] /\
    read_header header = Some (8, 1, [8; 2; 0; 0; 0]).
Proof.
  exists (snd (to_png uncompressed pixels 8 1 "out.png" fresh)).
  assert (to_png uncompressed pixels 8 1 "out.png" fresh =
          (Ok tt, snd (to_png uncompressed pixels 8 1 "out.png" fresh))) as E
    by (vm_compute; reflexivity).
  destruct (header_round_trip uncompressed _ _ _ _ _ _ E)
    as (content & header & crc & rest & H1 & H2 & H3 & H4).
  exists content, header, crc, rest.
  split; [exact E |]. split; [exact H1 |]. split; [exact H2 |].
  split; [exact H3 |]. exact H4.
Defined.

(** ** No length check, and the write is [to_png]'s own *)

(** C2, as the code has it: [to_png] compares no lengths and knows no
    encoding error.  Whatever the length of the buffer, it returns exactly
    when [width], [height] and the length of the compressed scanlines fit
    the 4-byte fields and the file can be opened and written four times; it
    has then written the whole image, its rows cut by slices that stop at
    the end of the buffer.  In every other case [struct.pack] or the file
    raises. *)
Theorem to_png_makes_no_length_check
  (compress : bytes -> bytes) (data : bytes) (width height : Z) (output : string)
  (w : world) :
  let r := fst (to_png compress data width height output w) in
  let w' := snd (to_png compress data width height output w) in
  (r = Ok tt <->
   fits_I width = true /\ fits_I height = true /\
   fits_I (len (compress (scanlines_of data width height))) = true /\
   (output ∉ denied w) /\ writes_succeed w = true) /\
  (r = Ok tt -> files w' !! output = Some (png_image compress data width height)) /\
  (r = Ok tt \/ r = Raise StructError \/ r = Raise IOError).
Proof.
  intros r w'. subst r w'.
  destruct (to_png_outcome compress data width height output w)
    as (r & w' & E & _ & _ & _ & Hcase).
  rewrite E. simpl.
  destruct Hcase as [(-> & Hp & Hd & Hf & Hfile) | [(-> & Hp & _) | (-> & Hp & Hio)]].
  - apply packs_fits in Hp as (? & ? & ?). split; [split; auto |]. split; auto.
  - split; [| split; [discriminate | auto]].
    split; [discriminate |]. intros (H1 & H2 & H3 & _).
    unfold packs in Hp. rewrite H1, H2, H3 in Hp. discriminate.
  - split; [| split; [discriminate | auto]].
    split; [discriminate |]. intros (_ & _ & _ & Hd & Hf).
    destruct Hio as [Hio | Hio]; [contradiction | congruence].
Qed.

Lemma to_png_makes_no_length_check_witness :
  len (@nil byte) <> 1 * 1 * 3 /\
  fst (to_png uncompressed [] 1 1 "out.png" fresh) = Ok tt /\
  files (snd (to_png uncompressed [] 1 1 "out.png" fresh)) !! "out.png" =
    Some (png_image uncompressed [] 1 1).
Proof.
  split; [discriminate |].
  destruct (to_png_makes_no_length_check uncompressed [] 1 1 "out.png" fresh)
    as (Hiff & Hfile & _).
  assert (fst (to_png uncompressed [] 1 1 "out.png" fresh) = Ok tt) as E.
  { apply Hiff. repeat split; try reflexivity. apply not_elem_of_empty. }
  split; [exact E | exact (Hfile E)].
Defined.

(** C2 fails on the code: a 1 x 1 image with an empty buffer, 0 bytes where
    3 are due, is encoded and written without complaint, whatever
    [zlib.compress] returns for its one-byte scanline block as long as that
    is shorter than 2^32 bytes. *)
Lemma to_png_accepts_short_buffer :
  len (@nil byte) <> 1 * 1 * 3 /\
  scanlines_of [] 1 1 = [x00] /\
  forall compress : bytes -> bytes,
    fits_I (len (compress [x00])) = true ->
    to_png compress [] 1 1 "out.png" fresh =
    (Ok tt, World (<["out.png" := png_image compress [] 1 1]> ∅) ∅ [] []).
Proof.
  split; [discriminate |]. split; [reflexivity |].
  intros compress Hfit.
  rewrite to_png_succeeds; [reflexivity | | apply not_elem_of_empty | reflexivity].
  unfold packs. change (scanlines_of [] 1 1) with [x00]. rewrite Hfit. reflexivity.
Qed.

(** C3, as the code has it: [to_png] hands back no byte stream; it opens
    [output] itself and writes the image there.  That file is the only
    thing it touches: every other file, the refused paths and the log of
    collaborator calls are as before, nothing at all changes when
    [struct.pack] raises, and when it returns the disk differs from the old
    one exactly by [output] holding the image. *)
Theorem to_png_writes_only_output
  (compress : bytes -> bytes) (data : bytes) (width height : Z) (output : string)
  (w : world) :
  let r := fst (to_png compress data width height output w) in
  let w' := snd (to_png compress data width height output w) in
  (forall p, p ≠ output -> files w' !! p = files w !! p) /\
  denied w' = denied w /\ log w' = log w /\
  (r = Raise StructError -> w' = w) /\
  (r = Ok tt -> files w' = <[output := png_image compress data width height]> (files w)).
Proof.
  intros r w'. subst r w'.
  destruct (to_png_outcome compress data width height output w)
    as (r & w' & E & Hden & Hlog & Hframe & Hcase).
  rewrite E. simpl. repeat (split; [assumption |]).
  destruct Hcase as [(-> & Hp & Hd & Hf & _) | [(-> & _ & ->) | (-> & _)]].
  - split; [discriminate |]. intros _.
    rewrite to_png_succeeds in E by assumption. injection E as <-. reflexivity.
  - split; [reflexivity | discriminate].
  - split; discriminate.
Qed.

Lemma to_png_writes_only_output_witness :
  let w := World {["other.png" := [x01]]} ∅ [] [] in
  let w' := snd (to_png uncompressed pixels 8 1 "out.png" w) in
  "other.png" ≠ "out.png" /\
  files w' !! "other.png" = Some [x01] /\
  files w' = <["out.png" := png_image uncompressed pixels 8 1]> (files w).
Proof.
  intros w w'.
  destruct (to_png_writes_only_output uncompressed pixels 8 1 "out.png" w)
    as (Hframe & _ & _ & _ & Hok).
  assert ("other.png" ≠ "out.png") as Hne by discriminate.
  split; [exact Hne |].
  split.
  - subst w'. rewrite (Hframe "other.png" Hne). reflexivity.
  - apply Hok. vm_compute. reflexivity.
Defined.

(** C3 fails on the code: on a fresh disk [to_png] creates the file
    [out.png] and fills it with the image, whatever [zlib.compress] returns
    for the scanlines as long as that is shorter than 2^32 bytes. *)
Lemma to_png_touches_disk :
  files fresh !! "out.png" = None /\
  forall compress : bytes -> bytes,
    fits_I (len (compress (x00 :: pixels))) = true ->
    files (snd (to_png compress pixels 8 1 "out.png" fresh)) !! "out.png" =
    Some (png_image compress pixels 8 1).
Proof.
  split; [reflexivity |].
  intros compress Hfit.
  rewrite to_png_succeeds; [apply lookup_insert_eq | | apply not_elem_of_empty | reflexivity].
  unfold packs. change (scanlines_of pixels 8 1) with (x00 :: pixels).
  rewrite Hfit. reflexivity.
Qed.

(** ** The capture loop *)

Lemma selects_selected (screen i : Z) :
  (screen <=? 0) || ((screen >? 0) && (i + 1 =? screen)) = true <-> selected screen i.
Proof.
  unfold selected.
  rewrite orb_true_iff, andb_true_iff, Z.leb_le, Z.gtb_gt, Z.eqb_eq. reflexivity.
Qed.

Lemma chosen_from_step (screen i : Z) (mon : monitor) (rest : list monitor) :
  chosen_from screen i (mon :: rest) =
  if decide (selected screen i) then (i, mon) :: chosen_from screen (i + 1) rest
  else chosen_from screen (i + 1) rest.
Proof.
  unfold chosen_from. simpl. rewrite filter_cons. simpl.
  destruct (decide (selected screen i)); reflexivity.
Qed.

Section Capture.

Variable compress : bytes -> bytes.
Context {backend : Backend}.
Variable output : string.
Variable screen : Z.
Variable callback : string -> bool.

Lemma save_turn_skips (i : Z) (mon : monitor) (w : world) :
  ~ selected screen i ->
  save_turn compress output screen callback i mon w = (Ok None, w).
Proof.
  intros H. unfold save_turn.
  destruct ((screen <=? 0) || ((screen >? 0) && (i + 1 =? screen))) eqn:E; [| reflexivity].
  apply selects_selected in E. contradiction.
Qed.

Lemma save_turn_selected (i : Z) (mon : monitor) (w : world) :
  selected screen i ->
  save_turn compress output screen callback i mon w =
  let fname := fname_of output i in
  let w1 := record (Captured mon) (record (Called fname (callback fname)) w) in
  match get_pixels mon with
  | Raise e => (Raise e, w1)
  | Ok data =>
      match to_png compress data (m_width mon) (m_height mon) fname w1 with
      | (Ok _, w2) => (Ok (Some fname), w2)
      | (Raise e, w2) => (Raise e, w2)
      end
  end.
Proof.
  intros H. apply selects_selected in H. unfold save_turn. rewrite H.
  fold (fname_of output i). unfold mbind, M_bind, mret, M_ret. cbv zeta.
  destruct (get_pixels mon) as [data | e]; reflexivity.
Qed.

(** What a turn for a selected monitor does, however it ends. *)
Lemma save_turn_effect (i : Z) (mon : monitor) (w : world) :
  selected screen i ->
  exists r w',
    save_turn compress output screen callback i mon w = (r, w') /\
    log w' = log w ++ turn_trace output callback (i, mon) /\
    denied w' = denied w /\
    (forall p, p ≠ fname_of output i -> files w' !! p = files w !! p) /\
    ((r = Ok (Some (fname_of output i)) /\ is_Some (files w' !! fname_of output i)) \/
     exists e, r = Raise e).
Proof.
  intros H. rewrite save_turn_selected by exact H. cbv zeta.
  set (w1 := record _ (record _ w)).
  assert (log w1 = log w ++ turn_trace output callback (i, mon)) as Hlog.
  { subst w1. unfold record, turn_trace. simpl. rewrite <- app_assoc. reflexivity. }
  destruct (get_pixels mon) as [data | e].
  - destruct (to_png_outcome compress data (m_width mon) (m_height mon)
                (fname_of output i) w1)
      as (r & w2 & E & Hden & Hlog2 & Hframe & Hcase).
    rewrite E.
    destruct Hcase as [(-> & _ & _ & _ & Hfile) | [(-> & _) | (-> & _)]].
    + eexists _, _. split; [reflexivity |].
      split; [congruence |]. split; [rewrite Hden; reflexivity |].
      split; [exact Hframe |]. left. split; [reflexivity |]. rewrite Hfile. eauto.
    + eexists _, _. split; [reflexivity |].
      split; [congruence |]. split; [rewrite Hden; reflexivity |].
      split; [exact Hframe |]. right. eauto.
    + eexists _, _. split; [reflexivity |].
      split; [congruence |]. split; [rewrite Hden; reflexivity |].
      split; [exact Hframe |]. right. eauto.
  - eexists _, _. split; [reflexivity |].
    split; [exact Hlog |]. split; [reflexivity |].
    split; [reflexivity |]. right. eauto.
Qed.

Lemma save_turn_keeps (i : Z) (mon : monitor) (w : world) (p : string) :
  is_Some (files w !! p) ->
  is_Some (files (save_turn compress output screen callback i mon w).2 !! p).
Proof.
  intros Hp. destruct (decide (selected screen i)) as [H | H].
  - rewrite save_turn_selected by exact H. cbv zeta.
    set (w1 := record _ (record _ w)).
    destruct (get_pixels mon) as [data | e]; [| exact Hp].
    pose proof (to_png_keeps compress data (m_width mon) (m_height mon)
                  (fname_of output i) w1 p Hp) as Hk.
    destruct (to_png compress data (m_width mon) (m_height mon) (fname_of output i) w1)
      as [[u | e] w2]; exact Hk.
  - rewrite save_turn_skips by exact H. exact Hp.
Qed.

Lemma save_loop_keeps (mons : list monitor) (i : Z) (w : world) (p : string) :
  is_Some (files w !! p) ->
  is_Some (files (save_loop compress output screen callback i mons w).2 !! p).
Proof.
  revert i w. induction mons as [| mon rest IH]; intros i w Hp; [exact Hp |].
  simpl. pose proof (save_turn_keeps i mon w p Hp) as Hk.
  destruct (save_turn compress output screen callback i mon w) as [[[f |] | e] w1];
    simpl in Hk.
  - specialize (IH (i + 1) w1 Hk).
    destruct (save_loop compress output screen callback (i + 1) rest w1) as [[names e] w2].
    exact IH.
  - apply IH. exact Hk.
  - exact Hk.
Qed.

(** The whole loop: it works through the chosen monitors in order, and
    stops early only on an exception. *)
Lemma save_loop_effect (mons : list monitor) (i : Z) (w : world) :
  let r := save_loop compress output screen callback i mons w in
  let picked := chosen_from screen i mons in
  exists k : nat,
    log r.2 = log w ++ flat_map (turn_trace output callback) (take k picked) /\
    denied r.2 = denied w /\
    (forall p, p ∉ map (fun im => fname_of output im.1) (take k picked) ->
               files r.2 !! p = files w !! p) /\
    match r.1.2 with
    | None =>
        take k picked = picked /\
        r.1.1 = map (fun im => fname_of output im.1) picked /\
        (forall p, p ∈ r.1.1 -> is_Some (files r.2 !! p))
    | Some e =>
        exists k', k = S k' /\ (k <= length picked)%nat /\
                   r.1.1 = map (fun im => fname_of output im.1) (take k' picked)
    end.
Proof.
  revert i w. induction mons as [| mon rest IH]; intros i w; cbv zeta.
  - exists 0%nat. simpl. rewrite app_nil_r.
    split; [reflexivity |]. split; [reflexivity |].
    split; [intros p _; reflexivity |].
    split; [reflexivity |]. split; [reflexivity |].
    intros p Hp. apply elem_of_nil in Hp. contradiction.
  - rewrite chosen_from_step. simpl save_loop.
    destruct (decide (selected screen i)) as [Hsel | Hsel].
    + destruct (save_turn_effect i mon w Hsel)
        as (r & w1 & E & Hlog & Hden & Hframe & Hcase).
      rewrite E. destruct Hcase as [(-> & Hfile) | (e & ->)].
      * specialize (IH (i + 1) w1). cbv zeta in IH.
        pose proof (save_loop_keeps rest (i + 1) w1 (fname_of output i) Hfile) as Hkeep.
        destruct (save_loop compress output screen callback (i + 1) rest w1)
          as [[names e] w2].
        destruct IH as (k & Hlog2 & Hden2 & Hframe2 & Hend). simpl in *.
        exists (S k). simpl.
        split; [rewrite Hlog2, Hlog, <- app_assoc; reflexivity |].
        split; [congruence |].
        split.
        { intros p Hp. apply not_elem_of_cons in Hp as [Hp1 Hp2].
          rewrite Hframe2 by exact Hp2. apply Hframe. exact Hp1. }
        destruct e as [e |].
        -- destruct Hend as (k' & -> & Hle & ->). exists (S k').
           split; [reflexivity |]. split; [lia | reflexivity].
        -- destruct Hend as (Htake & -> & Hsome).
           split; [rewrite Htake; reflexivity |]. split; [reflexivity |].
           intros p Hp. apply elem_of_cons in Hp as [-> | Hp]; [exact Hkeep | auto].
      * exists 1%nat. simpl.
        split; [exact Hlog |]. split; [exact Hden |].
        split.
        { intros p Hp. apply not_elem_of_cons in Hp as [Hp1 _]. apply Hframe. exact Hp1. }
        exists 0%nat. split; [reflexivity |]. split; [lia | reflexivity].
    + rewrite save_turn_skips by exact Hsel. apply IH.
Qed.

(** ** The generator and the loop *)

Lemma save_resume_loop (rest : list monitor) (i : Z) (w : world) :
  match save_resume compress output screen callback i rest w with
  | (Yield fname, Suspended j rest', w') =>
      (length rest' < length rest)%nat /\
      save_loop compress output screen callback i rest w =
      (fname :: (save_loop compress output screen callback j rest' w').1.1,
       (save_loop compress output screen callback j rest' w').1.2,
       (save_loop compress output screen callback j rest' w').2)
  | (Yield _, _, _) => False
  | (StopIteration, _, w') =>
      save_loop compress output screen callback i rest w = ([], None, w')
  | (Throw e, _, w') =>
      save_loop compress output screen callback i rest w = ([], Some e, w')
  end.
Proof.
  revert i w. induction rest as [| mon rest IH]; intros i w; simpl; [reflexivity |].
  destruct (save_turn compress output screen callback i mon w) as [[[fname |] | e] w1].
  - split; [lia |].
    destruct (save_loop compress output screen callback (i + 1) rest w1) as [[names e] w2].
    reflexivity.
  - specialize (IH (i + 1) w1).
    destruct (save_resume compress output screen callback (i + 1) rest w1)
      as [[[fname | | e] g] w2]; try exact IH.
    destruct g as [| j rest' |]; try exact IH.
    destruct IH as [Hlen IH]. split; [lia | exact IH].
  - reflexivity.
Qed.

(** Pulling the generator to its end gives the loop's result, for any
    fuel beyond the number of monitors left. *)
Lemma drain_suspended (fuel : nat) (rest : list monitor) (i : Z) (w : world) :
  (length rest < fuel)%nat ->
  drain compress output screen callback fuel (Suspended i rest) w =
  Some (save_loop compress output screen callback i rest w).
Proof.
  revert rest i w. induction fuel as [| fuel IH]; intros rest i w Hfuel; [lia |].
  simpl. pose proof (save_resume_loop rest i w) as H.
  destruct (save_resume compress output screen callback i rest w)
    as [[[fname | | e] g] w1].
  - destruct g as [| j rest' |]; try contradiction.
    destruct H as [Hlen ->]. rewrite IH by lia.
    destruct (save_loop compress output screen callback j rest' w1) as [[names e] w2].
    reflexivity.
  - rewrite H. reflexivity.
  - rewrite H. reflexivity.
Qed.

Lemma drain_created (fuel : nat) (mons : list monitor) (w : world) :
  enum_display_monitors screen = Ok mons ->
  (length mons < fuel)%nat ->
  drain compress output screen callback fuel Created w =
  Some (save compress output screen callback w).
Proof.
  intros Henum Hfuel. unfold save. rewrite Henum.
  rewrite <- (drain_suspended fuel mons 0 w Hfuel).
  destruct fuel as [| fuel]; [lia |]. simpl. rewrite Henum. reflexivity.
Qed.

End Capture.

(** ** Which monitors are chosen *)

Lemma elem_of_chosen_from (screen i j : Z) (m : monitor) (mons : list monitor) :
  (j, m) ∈ chosen_from screen i mons <->
  i <= j /\ mons !! Z.to_nat (j - i) = Some m /\ selected screen j.
Proof.
  revert i. induction mons as [| mon rest IH]; intros i.
  - unfold chosen_from. simpl. split.
    + intros H. apply elem_of_nil in H. contradiction.
    + intros (_ & H & _). discriminate.
  - rewrite chosen_from_step.
    assert ((j, m) ∈ chosen_from screen (i + 1) rest <->
            i + 1 <= j /\ (mon :: rest) !! Z.to_nat (j - i) = Some m /\ selected screen j)
      as IH'.
    { rewrite IH. split; intros (H1 & H2 & H3); (split; [lia |]); (split; [| exact H3]).
      - replace (Z.to_nat (j - i)) with (S (Z.to_nat (j - (i + 1)))) by lia. exact H2.
      - replace (Z.to_nat (j - i)) with (S (Z.to_nat (j - (i + 1)))) in H2 by lia.
        exact H2. }
    destruct (decide (selected screen i)) as [Hsel | Hsel].
    + rewrite elem_of_cons, IH'. split.
      * intros [E | (H1 & H2 & H3)].
        -- injection E as -> ->. rewrite Z.sub_diag. simpl. auto with zarith.
        -- split; [lia | auto].
      * intros (H1 & H2 & H3). destruct (Z.eq_dec i j) as [-> | Hne].
        -- rewrite Z.sub_diag in H2. simpl in H2. injection H2 as ->. left. reflexivity.
        -- right. split; [lia | auto].
    + rewrite IH'. split.
      * intros (H1 & H2 & H3). split; [lia | auto].
      * intros (H1 & H2 & H3). destruct (Z.eq_dec i j) as [-> | Hne]; [contradiction |].
        split; [lia | auto].
Qed.

Lemma chosen_from_past (screen i : Z) (mons : list monitor) :
  0 < screen <= i -> chosen_from screen i mons = [].
Proof.
  revert i. induction mons as [| mon rest IH]; intros i Hi; [reflexivity |].
  rewrite chosen_from_step, decide_False by (unfold selected; lia).
  apply IH. lia.
Qed.

Lemma chosen_from_single (screen i : Z) (m : monitor) (mons : list monitor) :
  0 < screen -> i < screen ->
  mons !! Z.to_nat (screen - 1 - i) = Some m ->
  chosen_from screen i mons = [(screen - 1, m)].
Proof.
  revert i. induction mons as [| mon rest IH]; intros i Hpos Hi Hm; [discriminate |].
  rewrite chosen_from_step. destruct (Z.eq_dec (i + 1) screen) as [E | Hne].
  - rewrite decide_True by (unfold selected; lia).
    replace (screen - 1 - i) with 0 in Hm by lia. simpl in Hm. injection Hm as ->.
    rewrite chosen_from_past by lia. f_equal. f_equal. lia.
  - rewrite decide_False by (unfold selected; lia).
    apply IH; [lia | lia |].
    replace (Z.to_nat (screen - 1 - i)) with (S (Z.to_nat (screen - 1 - (i + 1)))) in Hm
      by lia.
    exact Hm.
Qed.

Lemma captured_app (l1 l2 : list event) : captured (l1 ++ l2) = captured l1 ++ captured l2.
Proof. unfold captured. apply flat_map_app. Qed.

Section Selection.

Variable compress : bytes -> bytes.
Context {backend : Backend}.
Variable output : string.
Variable screen : Z.
Variable callback : string -> bool.

Lemma captured_turn_trace (ims : list (Z * monitor)) :
  captured (flat_map (turn_trace output callback) ims) = map snd ims.
Proof.
  induction ims as [| [i m] ims IH]; [reflexivity |].
  simpl. simpl in IH. rewrite IH. reflexivity.
Qed.

(** C5: the monitor at index [i] of the enumeration is among those [save]
    works on exactly when [screen <= 0], or [screen > 0] and
    [i + 1 = screen].  [save] requests pixels for these monitors only, in
    order, and leaves every file but theirs as it was; when no exception
    cuts the run short it captures and writes each of them and yields their
    paths.  With [screen = N > 0] and an [N]-th monitor in the enumeration,
    that monitor is the only one chosen: one capture, one file, one path. *)
Theorem save_processes_selected_monitors (mons : list monitor) (w : world) :
  enum_display_monitors screen = Ok mons ->
  let r := save compress output screen callback w in
  let picked := chosen_from screen 0 mons in
  let path := fun im : Z * monitor => fname_of output im.1 in
  (forall i m, (i, m) ∈ picked <->
     0 <= i /\ mons !! Z.to_nat i = Some m /\
     (screen <= 0 \/ (screen > 0 /\ i + 1 = screen))) /\
  (exists k : nat,
     captured (log r.2) = captured (log w) ++ map snd (take k picked) /\
     forall p, p ∉ map path (take k picked) -> files r.2 !! p = files w !! p) /\
  (r.1.2 = None ->
     r.1.1 = map path picked /\
     captured (log r.2) = captured (log w) ++ map snd picked /\
     (forall p, p ∈ r.1.1 -> is_Some (files r.2 !! p)) /\
     (forall p, p ∉ r.1.1 -> files r.2 !! p = files w !! p)) /\
  (forall m, screen > 0 -> mons !! Z.to_nat (screen - 1) = Some m ->
     picked = [(screen - 1, m)] /\
     (r.1.2 = None ->
        r.1.1 = [fname_of output (screen - 1)] /\
        captured (log r.2) = captured (log w) ++ [m])).
Proof.
  intros Henum r picked path.
  assert (r = save_loop compress output screen callback 0 mons w) as Er.
  { subst r. unfold save. rewrite Henum. reflexivity. }
  destruct (save_loop_effect compress output screen callback mons 0 w)
    as (k & Hlog & _ & Hframe & Hend).
  rewrite <- Er in Hlog, Hframe, Hend. fold picked in Hlog, Hframe, Hend.
  assert (r.1.2 = None ->
          r.1.1 = map path picked /\
          captured (log r.2) = captured (log w) ++ map snd picked /\
          (forall p, p ∈ r.1.1 -> is_Some (files r.2 !! p)) /\
          (forall p, p ∉ r.1.1 -> files r.2 !! p = files w !! p)) as Hdone.
  { intros Hnone. rewrite Hnone in Hend. destruct Hend as (Htake & Hnames & Hsome).
    rewrite Htake in Hlog, Hframe.
    split; [exact Hnames |].
    split; [rewrite Hlog, captured_app, captured_turn_trace; reflexivity |].
    split; [exact Hsome |].
    intros p Hp. apply Hframe. rewrite <- Hnames. exact Hp. }
  split.
  { intros i m. subst picked. rewrite elem_of_chosen_from, Z.sub_0_r. reflexivity. }
  split.
  { exists k. split; [| exact Hframe].
    rewrite Hlog, captured_app, captured_turn_trace. reflexivity. }
  split; [exact Hdone |].
  intros m Hpos Hm.
  assert (picked = [(screen - 1, m)]) as Hone.
  { subst picked. apply chosen_from_single; [lia | lia |]. rewrite Z.sub_0_r. exact Hm. }
  split; [exact Hone |].
  intros Hnone. destruct (Hdone Hnone) as (Hnames & Hcap & _).
  rewrite Hone in Hnames, Hcap. split; [exact Hnames | exact Hcap].
Qed.

End Selection.

Lemma save_processes_selected_monitors_witness :
  let r := save (backend := two_monitors) uncompressed "screenshot-%d.png" 2 accept_all
                fresh in
  enum_display_monitors (Backend := two_monitors) 2 = Ok [mon1; mon2] /\
  r.1.1 = ["screenshot-2.png"] /\ captured (log r.2) = [mon2] /\
  files r.2 !! "screenshot-1.png" = None.
Proof.
  intros r.
  assert (enum_display_monitors (Backend := two_monitors) 2 = Ok [mon1; mon2]) as Henum
    by reflexivity.
  destruct (save_processes_selected_monitors (backend := two_monitors)
              uncompressed "screenshot-%d.png" 2 accept_all [mon1; mon2] fresh Henum)
    as (_ & _ & Hdone & Hone).
  assert (r.1.2 = None) as Hnone by (vm_compute; reflexivity).
  destruct (Hone mon2 ltac:(lia) ltac:(reflexivity)) as (_ & Hsingle).
  destruct (Hsingle Hnone) as (Hnames & Hcap).
  destruct (Hdone Hnone) as (_ & _ & _ & Hframe).
  split; [exact Henum |].
  split; [exact Hnames |].
  split; [exact Hcap |].
  subst r. rewrite Hframe; [reflexivity |].
  rewrite Hnames. intros Hin. apply list_elem_of_singleton in Hin. discriminate.
Defined.

(** ** The callback's answer *)

Lemma packs_pixels (compress : bytes -> bytes) :
  fits_I (len (compress (x00 :: pixels))) = true -> packs compress pixels 8 1 = true.
Proof.
  intros Hfit. unfold packs. change (scanlines_of pixels 8 1) with (x00 :: pixels).
  rewrite Hfit. reflexivity.
Qed.

(** C1 against the code: two monitors, the default pattern, [screen = 0],
    and a callback that answers [False] for [screenshot-1.png].  The callback
    is asked first, and its answer is dropped: pixels are requested for the
    first monitor all the same, its file is written and its path yielded,
    before the second monitor gets the same treatment.  This holds whatever
    [zlib.compress] returns for the scanlines, as long as that is shorter
    than 2^32 bytes. *)
Theorem save_ignores_callback_answer :
  refuse_first "screenshot-1.png" = false /\
  forall compress : bytes -> bytes,
    fits_I (len (compress (x00 :: pixels))) = true ->
    save (backend := two_monitors) compress "screenshot-%d.png" 0 refuse_first fresh =
    (["screenshot-1.png"; "screenshot-2.png"], None,
     World (<["screenshot-2.png" := png_image compress pixels 8 1]>
              (<["screenshot-1.png" := png_image compress pixels 8 1]> ∅))
           ∅ []
           [Called "screenshot-1.png" false; Captured mon1;
            Called "screenshot-2.png" true; Captured mon2]).
Proof.
  split; [reflexivity |].
  intros compress Hfit. apply packs_pixels in Hfit.
  set (w1 := World (<["screenshot-1.png" := png_image compress pixels 8 1]> ∅) ∅ []
                   [Called "screenshot-1.png" false; Captured mon1]).
  assert (save_turn (backend := two_monitors) compress "screenshot-%d.png" 0 refuse_first
            0 mon1 fresh = (Ok (Some "screenshot-1.png"), w1)) as E1.
  { rewrite save_turn_selected by (left; lia). cbv zeta.
    change (get_pixels mon1) with (Ok pixels). cbv beta iota.
    change (fname_of "screenshot-%d.png" 0) with "screenshot-1.png".
    rewrite to_png_succeeds;
      [reflexivity | exact Hfit | apply not_elem_of_empty | reflexivity]. }
  assert (save_turn (backend := two_monitors) compress "screenshot-%d.png" 0 refuse_first
            (0 + 1) mon2 w1 =
          (Ok (Some "screenshot-2.png"),
           World (<["screenshot-2.png" := png_image compress pixels 8 1]> (files w1)) ∅ []
                 [Called "screenshot-1.png" false; Captured mon1;
                  Called "screenshot-2.png" true; Captured mon2])) as E2.
  { rewrite save_turn_selected by (left; lia). cbv zeta.
    change (get_pixels mon2) with (Ok pixels). cbv beta iota.
    change (fname_of "screenshot-%d.png" (0 + 1)) with "screenshot-2.png".
    rewrite to_png_succeeds;
      [reflexivity | exact Hfit | apply not_elem_of_empty | reflexivity]. }
  unfold save. change (enum_display_monitors 0) with (Ok [mon1; mon2]).
  cbv iota beta. unfold save_loop. rewrite E1, E2. reflexivity.
Qed.

(** * Beyond the claims *)

(** ** [arch] *)

(** X1: on a Python whose [sys.maxsize] is [2^(bits-1) - 1], [arch]
    answers 32 up to 33 bits and 64 from 34 bits on; so 32 on a 32-bit
    build and 64 on a 64-bit one. *)
Theorem arch_of_word_size (bits : Z) :
  1 <= bits ->
  arch (2 ^ (bits - 1) - 1) = (if bits <=? 33 then 32 else 64) /\
  arch (2 ^ 31 - 1) = 32 /\ arch (2 ^ 63 - 1) = 64.
Proof.
  intros Hbits. split; [| split; reflexivity].
  unfold arch. destruct (Z.leb_spec bits 33) as [Hle | Hgt].
  - assert (2 ^ (bits - 1) <= 2 ^ 32) by (apply Z.pow_le_mono_r; lia).
    destruct (Z.gtb_spec (2 ^ (bits - 1) - 1) (2 ^ 32)); [lia | reflexivity].
  - assert (2 ^ 33 <= 2 ^ (bits - 1)) by (apply Z.pow_le_mono_r; lia).
    change (2 ^ 33) with (2 * 2 ^ 32) in H.
    assert (0 < 2 ^ 32) by reflexivity.
    destruct (Z.gtb_spec (2 ^ (bits - 1) - 1) (2 ^ 32)); [reflexivity | lia].
Qed.

Lemma arch_of_word_size_witness :
  1 <= 64 /\ arch (2 ^ (64 - 1) - 1) = 64.
Proof.
  split; [lia |].
  exact (proj1 (arch_of_word_size 64 ltac:(lia))).
Defined.

(** ** [mss] *)

Lemma lower_ascii_idempotent (c : ascii) : lower_ascii (lower_ascii c) = lower_ascii c.
Proof. destruct c as [[|] [|] [|] [|] [|] [|] [|] [|]]; reflexivity. Qed.

Lemma lower_idempotent (s : string) : lower (lower s) = lower s.
Proof.
  induction s as [| c s IH]; [reflexivity |].
  simpl. rewrite lower_ascii_idempotent, IH. reflexivity.
Qed.

(** X2: the factory looks at the system name in lower case only, so any
    casing of a name gives the same answer; it picks a class exactly when
    the lower-cased name is that class's name, and for every other name it
    raises [ScreenshotError] with the lower-cased name in the message. *)
Theorem mss_dispatch (system : string) :
  mss (lower system) = mss system /\
  (forall c, mss system = Ok c <-> lower system = system_name c) /\
  ((forall c, lower system <> system_name c) ->
   mss system =
   Raise (ScreenshotError ("System " +:+ dquote +:+ lower system +:+ dquote
                           +:+ " not implemented."))).
Proof.
  split; [unfold mss; rewrite lower_idempotent; reflexivity |].
  unfold mss. cbv zeta.
  destruct (String.eqb_spec (lower system) "darwin") as [E1 | N1].
  { split.
    - intros c. split.
      + intros [= <-]. exact E1.
      + intros E. rewrite E1 in E. destruct c; try discriminate. reflexivity.
    - intros H. destruct (H MSSMac E1). }
  destruct (String.eqb_spec (lower system) "linux") as [E2 | N2].
  { split.
    - intros c. split.
      + intros [= <-]. exact E2.
      + intros E. rewrite E2 in E. destruct c; try discriminate. reflexivity.
    - intros H. destruct (H MSSLinux E2). }
  destruct (String.eqb_spec (lower system) "windows") as [E3 | N3].
  { split.
    - intros c. split.
      + intros [= <-]. exact E3.
      + intros E. rewrite E3 in E. destruct c; try discriminate. reflexivity.
    - intros H. destruct (H MSSWindows E3). }
  split.
  - intros c. split; [discriminate |].
    intros E. destruct c; simpl in E; contradiction.
  - intros _. reflexivity.
Qed.

Lemma mss_dispatch_witness :
  mss "Linux" = Ok MSSLinux /\ mss "LINUX" = mss "linux" /\
  mss "Java" = Raise (ScreenshotError ("System " +:+ dquote +:+ "java" +:+ dquote
                                       +:+ " not implemented.")).
Proof.
  destruct (mss_dispatch "Linux") as (_ & Hiff & _).
  destruct (mss_dispatch "LINUX") as (Hlow & _ & _).
  destruct (mss_dispatch "Java") as (_ & _ & Herr).
  split; [apply Hiff; reflexivity |].
  split; [symmetry; exact Hlow |].
  apply Herr. intros c. destruct c; discriminate.
Defined.

(** ** More on [to_png]: rows *)







(** ** More on [to_png]: the file *)

Lemma chunk_length (tag payload : bytes) :
  length tag = 4%nat -> len (chunk tag payload) = 12 + len payload.
Proof.
  intros Htag. unfold chunk, len. rewrite !length_app, !big_endian_length, Htag. lia.
Qed.

Lemma iend_bytes :
  iend_of = [x00; x00; x00; x00; x49; x45; x4e; x44; xae; x42; x60; x82].
Proof. vm_compute. reflexivity. Qed.

Lemma png_image_length (compress : bytes -> bytes) (data : bytes) (width height : Z) :
  len (png_image compress data width height) =
  57 + len (compress (scanlines_of data width height)).
Proof.
  unfold png_image, ihdr_of, idat_of, iend_of.
  pose proof (chunk_length (b_lit "IHDR") (header_payload width height) eq_refl) as H1.
  pose proof (chunk_length (b_lit "IDAT") (compress (scanlines_of data width height))
                eq_refl) as H2.
  pose proof (chunk_length (b_lit "IEND") [] eq_refl) as H3.
  rewrite header_payload_length in H1.
  change (len (@nil byte)) with 0 in H3.
  assert (len signature = 8) as H0 by reflexivity.
  unfold len in *. rewrite !length_app. lia.
Qed.

Section File.

Variable compress : bytes -> bytes.

(** X5: when [to_png] returns, the file it wrote is 57 bytes longer than
    the compressed scanlines: 8 bytes of signature, 25 of header chunk, 12
    of framing around the data, 12 of trailer chunk. *)
Theorem output_size
  (data : bytes) (width height : Z) (output : string) (w w' : world) :
  to_png compress data width height output w = (Ok tt, w') ->
  exists content,
    files w' !! output = Some content /\
    len content = 57 + len (compress (scanlines_of data width height)).
Proof.
  intros E. apply to_png_returned in E as [_ E].
  exists (png_image compress data width height). split; [exact E |].
  apply png_image_length.
Qed.

(** X6: when [to_png] returns, the file ends with the same twelve bytes
    whatever the image: a zero length, [IEND], and the checksum AE 42 60
    82. *)
Theorem output_ends_with_trailer
  (data : bytes) (width height : Z) (output : string) (w w' : world) :
  to_png compress data width height output w = (Ok tt, w') ->
  exists content,
    files w' !! output = Some content /\
    skipn (length content - 12) content =
      [x00; x00; x00; x00; x49; x45; x4e; x44; xae; x42; x60; x82].
Proof.
  intros E. apply to_png_returned in E as [_ E].
  exists (png_image compress data width height). split; [exact E |].
  unfold png_image. rewrite iend_bytes.
  rewrite 2!app_assoc. apply drop_app_length'.
  rewrite (length_app _ [x00; x00; x00; x00; x49; x45; x4e; x44; xae; x42; x60; x82]).
  change (length [x00; x00; x00; x00; x49; x45; x4e; x44; xae; x42; x60; x82])
    with 12%nat.
  lia.
Qed.

(** X7: a width or height below zero or of 2^32 and more makes [to_png]
    raise [struct.error] before it opens the file: the world is exactly as
    it was. *)
Theorem to_png_rejects_dimensions
  (data : bytes) (width height : Z) (output : string) (w : world) :
  width < 0 \/ 2 ^ 32 <= width \/ height < 0 \/ 2 ^ 32 <= height ->
  to_png compress data width height output w = (Raise StructError, w).
Proof.
  intros H. rewrite to_png_unfold.
  assert (fits_I width && fits_I height = false) as Hfit.
  { unfold fits_I. apply andb_false_iff.
    destruct H as [H | [H | [H | H]]].
    - left. apply andb_false_iff. left. apply Z.leb_gt. exact H.
    - left. apply andb_false_iff. right. apply Z.ltb_ge. exact H.
    - right. apply andb_false_iff. left. apply Z.leb_gt. exact H.
    - right. apply andb_false_iff. right. apply Z.ltb_ge. exact H. }
  unfold packs. rewrite Hfit. reflexivity.
Qed.

(** X8: when [open] refuses the path, [to_png] raises the I/O error and
    the world is exactly as it was; this is so whenever the three packed
    values fit their fields. *)
Theorem to_png_open_refused
  (data : bytes) (width height : Z) (output : string) (w : world) :
  fits_I width = true -> fits_I height = true ->
  fits_I (len (compress (scanlines_of data width height))) = true ->
  output ∈ denied w ->
  to_png compress data width height output w = (Raise IOError, w).
Proof.
  intros H1 H2 H3 Hd. rewrite to_png_unfold. unfold packs. rewrite H1, H2, H3.
  apply dump_denied. exact Hd.
Qed.

End File.

Lemma to_png_pixels_returns :
  to_png uncompressed pixels 8 1 "out.png" fresh =
  (Ok tt, snd (to_png uncompressed pixels 8 1 "out.png" fresh)).
Proof. vm_compute. reflexivity. Qed.

Lemma output_size_witness :
  exists w' content,
    to_png uncompressed pixels 8 1 "out.png" fresh = (Ok tt, w') /\
    files w' !! "out.png" = Some content /\
    len content = 57 + len (uncompressed (scanlines_of pixels 8 1)).
Proof.
  exists (snd (to_png uncompressed pixels 8 1 "out.png" fresh)).
  destruct (output_size uncompressed _ _ _ _ _ _ to_png_pixels_returns)
    as (content & H1 & H2).
  exists content. split; [exact to_png_pixels_returns |]. split; [exact H1 | exact H2].
Defined.

Lemma output_ends_with_trailer_witness :
  exists w' content,
    to_png uncompressed pixels 8 1 "out.png" fresh = (Ok tt, w') /\
    files w' !! "out.png" = Some content /\
    skipn (length content - 12) content =
      [x00; x00; x00; x00; x49; x45; x4e; x44; xae; x42; x60; x82].
Proof.
  exists (snd (to_png uncompressed pixels 8 1 "out.png" fresh)).
  destruct (output_ends_with_trailer uncompressed _ _ _ _ _ _ to_png_pixels_returns)
    as (content & H1 & H2).
  exists content. split; [exact to_png_pixels_returns |]. split; [exact H1 | exact H2].
Defined.

Lemma to_png_rejects_dimensions_witness :
  (-1 < 0 \/ 2 ^ 32 <= -1 \/ 1 < 0 \/ 2 ^ 32 <= 1) /\
  to_png uncompressed pixels (-1) 1 "out.png" fresh = (Raise StructError, fresh).
Proof.
  assert (-1 < 0 \/ 2 ^ 32 <= -1 \/ 1 < 0 \/ 2 ^ 32 <= 1) as H by (left; reflexivity).
  split; [exact H |].
  exact (to_png_rejects_dimensions uncompressed pixels (-1) 1 "out.png" fresh H).
Defined.

Lemma to_png_open_refused_witness :
  let w := World {["out.png" := [x01; x02]]} {["out.png"]} [] [] in
  "out.png" ∈ denied w /\
  to_png uncompressed pixels 8 1 "out.png" w = (Raise IOError, w).
Proof.
  intros w.
  assert ("out.png" ∈ denied w) as Hd by (subst w; simpl; set_solver).
  split; [exact Hd |].
  apply (to_png_open_refused uncompressed pixels 8 1 "out.png" w);
    [reflexivity | reflexivity | vm_compute; reflexivity | exact Hd].
Defined.




(** ** More on [save] *)

Section Runs.

Variable compress : bytes -> bytes.
Context {backend : Backend}.
Variable output : string.
Variable screen : Z.
Variable callback : string -> bool.

Lemma save_loop_nothing_chosen (mons : list monitor) (i : Z) (w : world) :
  chosen_from screen i mons = [] ->
  save_loop compress output screen callback i mons w = ([], None, w).
Proof.
  revert i. induction mons as [| mon rest IH]; intros i Hnone; [reflexivity |].
  rewrite chosen_from_step in Hnone.
  destruct (decide (selected screen i)) as [Hsel | Hsel]; [discriminate |].
  simpl. rewrite save_turn_skips by exact Hsel. apply IH. exact Hnone.
Qed.

Lemma chosen_from_beyond (mons : list monitor) (i : Z) :
  0 <= i -> i + len mons < screen -> chosen_from screen i mons = [].
Proof.
  revert i. induction mons as [| mon rest IH]; intros i Hpos Hi; [reflexivity |].
  unfold len in Hi. rewrite length_cons, Nat2Z.inj_succ in Hi.
  rewrite chosen_from_step, decide_False by (unfold selected; lia).
  apply IH; [lia |]. unfold len. lia.
Qed.

(** X10: asking for monitor [screen = N] when fewer than [N] monitors are
    enumerated is no error: [save] yields nothing, asks and captures
    nothing, and leaves the world exactly as it was. *)
Theorem save_beyond_enumeration (mons : list monitor) (w : world) :
  enum_display_monitors screen = Ok mons ->
  len mons < screen ->
  save compress output screen callback w = ([], None, w).
Proof.
  intros Henum Hlen. unfold save. rewrite Henum.
  apply save_loop_nothing_chosen. apply chosen_from_beyond; lia.
Qed.

Lemma save_loop_names_bound (mons : list monitor) (i : Z) (w : world) :
  (length (save_loop compress output screen callback i mons w).1.1 <= length mons)%nat.
Proof.
  revert i w. induction mons as [| mon rest IH]; intros i w; [reflexivity |].
  simpl. destruct (save_turn compress output screen callback i mon w)
    as [[[fname |] | e] w1].
  - specialize (IH (i + 1) w1).
    destruct (save_loop compress output screen callback (i + 1) rest w1)
      as [[names e] w2].
    simpl in *. lia.
  - specialize (IH (i + 1) w1). lia.
  - simpl. lia.
Qed.

(** X13: the generator always comes to its end: one pull more than there
    are monitors in the enumeration exhausts it, with the result of the
    loop, and it yields at most one path per enumerated monitor. *)
Theorem save_generator_terminates (mons : list monitor) (w : world) :
  enum_display_monitors screen = Ok mons ->
  drain compress output screen callback (S (length mons)) Created w =
    Some (save compress output screen callback w) /\
  (length (save compress output screen callback w).1.1 <= length mons)%nat.
Proof.
  intros Henum. split.
  - apply (drain_created compress output screen callback _ mons w Henum). lia.
  - unfold save. rewrite Henum. apply save_loop_names_bound.
Qed.

Lemma save_loop_first_capture_fails
  (mons : list monitor) (i j : Z) (m : monitor) (tail : list (Z * monitor))
  (e : exn) (w : world) :
  chosen_from screen i mons = (j, m) :: tail ->
  get_pixels m = Raise e ->
  save_loop compress output screen callback i mons w =
  ([], Some e,
   record (Captured m)
          (record (Called (fname_of output j) (callback (fname_of output j))) w)).
Proof.
  revert i. induction mons as [| mon rest IH]; intros i Hch Hget; [discriminate |].
  rewrite chosen_from_step in Hch. simpl.
  destruct (decide (selected screen i)) as [Hsel | Hsel].
  - injection Hch as -> -> _. rewrite save_turn_selected by exact Hsel.
    cbv zeta. rewrite Hget. reflexivity.
  - rewrite save_turn_skips by exact Hsel. apply IH; assumption.
Qed.

(** X16: when [get_pixels] raises for the first monitor the selection
    keeps, as the base class's [get_pixels] does, [save] has by then called
    the callback once, for that monitor's path; it yields nothing, ends with
    that exception, and no file is created or changed. *)
Theorem save_first_capture_fails
  (mons : list monitor) (j : Z) (m : monitor) (tail : list (Z * monitor))
  (e : exn) (w : world) :
  enum_display_monitors screen = Ok mons ->
  chosen_from screen 0 mons = (j, m) :: tail ->
  get_pixels m = Raise e ->
  let r := save compress output screen callback w in
  r.1 = ([], Some e) /\
  log r.2 = log w ++ [Called (fname_of output j) (callback (fname_of output j));
                      Captured m] /\
  files r.2 = files w.
Proof.
  intros Henum Hch Hget r. subst r. unfold save. rewrite Henum.
  rewrite (save_loop_first_capture_fails mons 0 j m tail e w Hch Hget).
  simpl. rewrite <- app_assoc. auto.
Qed.

End Runs.

Lemma save_beyond_enumeration_witness :
  len [mon1; mon2] < 3 /\
  save (backend := two_monitors) uncompressed "screenshot-%d.png" 3 accept_all fresh =
  ([], None, fresh).
Proof.
  assert (len [mon1; mon2] < 3) as H by reflexivity.
  split; [exact H |].
  exact (save_beyond_enumeration (backend := two_monitors) uncompressed
           "screenshot-%d.png" 3 accept_all [mon1; mon2] fresh eq_refl H).
Defined.

Lemma save_generator_terminates_witness :
  drain (backend := two_monitors) uncompressed "screenshot-%d.png" 0 accept_all
        3 Created fresh =
  Some (save (backend := two_monitors) uncompressed "screenshot-%d.png" 0 accept_all fresh).
Proof.
  exact (proj1 (save_generator_terminates (backend := two_monitors) uncompressed
                  "screenshot-%d.png" 0 accept_all [mon1; mon2] fresh eq_refl)).
Defined.

Lemma save_first_capture_fails_witness :
  let r := save (backend := two_monitors_no_pixels) uncompressed "screenshot-%d.png" 2
                accept_all fresh in
  r.1 = ([], Some (NotImplementedError not_implemented)) /\
  log r.2 = [Called "screenshot-2.png" true; Captured mon2] /\
  files r.2 = ∅.
Proof.
  exact (save_first_capture_fails (backend := two_monitors_no_pixels) uncompressed
           "screenshot-%d.png" 2 accept_all [mon1; mon2] 1 mon2 []
           (NotImplementedError not_implemented) fresh eq_refl eq_refl eq_refl).
Defined.

Section Pulls.

Variable compress : bytes -> bytes.
Context {backend : Backend}.
Variable output : string.
Variable screen : Z.
Variable callback : string -> bool.

(** X12: one pull of the generator deals with exactly one monitor, the
    next one the selection keeps: the callback is asked about its path, its
    pixels are requested, only its file can change, and the pull ends by
    yielding that path, with the monitors after it still to come, or by an
    exception that finishes the generator.  With no selected monitor left
    the pull stops the iteration and touches nothing.  The first pull starts
    the enumeration at index 0. *)
Theorem save_next_one_monitor (i : Z) (rest : list monitor) (w : world) :
  let r := save_next compress output screen callback (Suspended i rest) w in
  match chosen_from screen i rest with
  | [] => r = (StopIteration, Finished, w)
  | (j, m) :: tail =>
      log r.2 = log w ++ turn_trace output callback (j, m) /\
      (forall p, p ≠ fname_of output j -> files r.2 !! p = files w !! p) /\
      ((r.1.1 = Yield (fname_of output j) /\
        exists rest', r.1.2 = Suspended (j + 1) rest' /\
                      chosen_from screen (j + 1) rest' = tail) \/
       (exists e, r.1.1 = Throw e /\ r.1.2 = Finished))
  end /\
  forall mons, enum_display_monitors screen = Ok mons ->
    save_next compress output screen callback Created w =
    save_next compress output screen callback (Suspended 0 mons) w.
Proof.
  cbv zeta. split; [| intros mons Henum; simpl; rewrite Henum; reflexivity].
  simpl save_next. revert i. induction rest as [| mon rest IH]; intros i.
  - reflexivity.
  - rewrite chosen_from_step. simpl save_resume.
    destruct (decide (selected screen i)) as [Hsel | Hsel].
    + destruct (save_turn_effect compress output screen callback i mon w Hsel)
        as (r & w1 & E & Hlog & _ & Hframe & Hcase).
      rewrite E. destruct Hcase as [(-> & _) | (e & ->)]; simpl.
      * split; [exact Hlog |]. split; [exact Hframe |].
        left. split; [reflexivity |]. exists rest. auto.
      * split; [exact Hlog |]. split; [exact Hframe |].
        right. exists e. auto.
    + rewrite save_turn_skips by exact Hsel. apply IH.
Qed.

End Pulls.

(** ** The callback's answer, in general *)

Lemma dump_alike (output : string) (a b c d : bytes) (w1 w2 : world) :
  alike w1 w2 ->
  (dump output a b c d w1).1 = (dump output a b c d w2).1 /\
  alike (dump output a b c d w1).2 (dump output a b c d w2).2.
Proof.
  destruct w1 as [fs1 dn1 fl1 lg1], w2 as [fs2 dn2 fl2 lg2]. unfold alike. simpl.
  intros (-> & -> & -> & Hcap). run_dump.
  destruct (decide (output ∈ dn2)); simpl; [auto |].
  destruct fl2 as [| [|] [| [|] [| [|] [| [|] fl]]]]; simpl; auto.
Qed.

Section Answers.

Variable compress : bytes -> bytes.
Context {backend : Backend}.
Variable output : string.
Variable screen : Z.

Lemma to_png_alike (data : bytes) (width height : Z) (path : string) (w1 w2 : world) :
  alike w1 w2 ->
  (to_png compress data width height path w1).1 =
  (to_png compress data width height path w2).1 /\
  alike (to_png compress data width height path w1).2
        (to_png compress data width height path w2).2.
Proof.
  intros H. rewrite !to_png_unfold.
  destruct (packs compress data width height); [apply dump_alike; exact H |].
  simpl. auto.
Qed.

Lemma save_turn_alike (cb1 cb2 : string -> bool) (i : Z) (mon : monitor) (w1 w2 : world) :
  alike w1 w2 ->
  (save_turn compress output screen cb1 i mon w1).1 =
  (save_turn compress output screen cb2 i mon w2).1 /\
  alike (save_turn compress output screen cb1 i mon w1).2
        (save_turn compress output screen cb2 i mon w2).2.
Proof.
  intros H. destruct (decide (selected screen i)) as [Hsel | Hsel].
  - rewrite !save_turn_selected by exact Hsel. cbv zeta.
    set (v1 := record (Captured mon) (record _ w1)).
    set (v2 := record (Captured mon) (record _ w2)).
    assert (alike v1 v2) as Hv.
    { destruct H as (H1 & H2 & H3 & H4). subst v1 v2. unfold alike, record. simpl.
      rewrite !captured_app, H4. auto. }
    destruct (get_pixels mon) as [data | e]; [| simpl; auto].
    destruct (to_png_alike data (m_width mon) (m_height mon) (fname_of output i) v1 v2 Hv)
      as [Hr Hw].
    destruct (to_png compress data (m_width mon) (m_height mon) (fname_of output i) v1)
      as [[u1 | e1] x1],
      (to_png compress data (m_width mon) (m_height mon) (fname_of output i) v2)
      as [[u2 | e2] x2]; simpl in *; try discriminate; try (injection Hr as ->); auto.
  - rewrite !save_turn_skips by exact Hsel. simpl. auto.
Qed.

Lemma save_loop_alike (cb1 cb2 : string -> bool) (mons : list monitor) (i : Z)
  (w1 w2 : world) :
  alike w1 w2 ->
  (save_loop compress output screen cb1 i mons w1).1 =
  (save_loop compress output screen cb2 i mons w2).1 /\
  alike (save_loop compress output screen cb1 i mons w1).2
        (save_loop compress output screen cb2 i mons w2).2.
Proof.
  revert i w1 w2. induction mons as [| mon rest IH]; intros i w1 w2 H; [simpl; auto |].
  simpl. destruct (save_turn_alike cb1 cb2 i mon w1 w2 H) as [Hr Hw].
  destruct (save_turn compress output screen cb1 i mon w1) as [[[f1 |] | e1] x1],
           (save_turn compress output screen cb2 i mon w2) as [[[f2 |] | e2] x2];
    simpl in Hr, Hw; try discriminate.
  - injection Hr as ->. specialize (IH (i + 1) x1 x2 Hw).
    destruct (save_loop compress output screen cb1 (i + 1) rest x1) as [[n1 r1] y1],
             (save_loop compress output screen cb2 (i + 1) rest x2) as [[n2 r2] y2].
    simpl in *. destruct IH as [IH1 IH2]. injection IH1 as -> ->. auto.
  - apply IH. exact Hw.
  - injection Hr as ->. simpl. auto.
Qed.

(** X11: nothing [save] does depends on what the callback answers: with
    any two callbacks, from the same world, the same paths are yielded, the
    run ends the same way, the same monitors are captured in the same
    order, and the disk is left in the same state. *)
Theorem save_same_for_any_callback (cb1 cb2 : string -> bool) (w : world) :
  let r1 := save compress output screen cb1 w in
  let r2 := save compress output screen cb2 w in
  r1.1 = r2.1 /\ files r1.2 = files r2.2 /\
  captured (log r1.2) = captured (log r2.2).
Proof.
  cbv zeta. unfold save.
  destruct (enum_display_monitors screen) as [mons | e]; [| auto].
  assert (alike w w) as Hw by (unfold alike; auto).
  destruct (save_loop_alike cb1 cb2 mons 0 w w Hw) as (Hr & Hf & _ & _ & Hc). auto.
Qed.

End Answers.

(** ** One path for every monitor *)

Section SamePath.

Variable compress : bytes -> bytes.
Context {backend : Backend}.
Variable output : string.
Variable screen : Z.
Variable callback : string -> bool.

Lemma save_turn_writes_image (i : Z) (mon : monitor) (data : bytes) (w w1 : world)
  (fname : string) :
  selected screen i -> get_pixels mon = Ok data ->
  save_turn compress output screen callback i mon w = (Ok (Some fname), w1) ->
  files w1 !! fname_of output i =
  Some (png_image compress data (m_width mon) (m_height mon)).
Proof.
  intros Hsel Hget E. rewrite save_turn_selected in E by exact Hsel. cbv zeta in E.
  rewrite Hget in E.
  destruct (to_png compress data (m_width mon) (m_height mon) (fname_of output i)
              (record (Captured mon)
                 (record (Called (fname_of output i) (callback (fname_of output i))) w)))
    as [[[] | e] w2] eqn:Epng; [| discriminate].
  injection E as _ <-. apply to_png_returned in Epng as [_ Hfile]. exact Hfile.
Qed.

Lemma save_loop_last_writer (mons : list monitor) (i j : Z) (m : monitor)
  (data : bytes) (w : world) :
  (save_loop compress output screen callback i mons w).1.2 = None ->
  last (chosen_from screen i mons) = Some (j, m) ->
  get_pixels m = Ok data ->
  files (save_loop compress output screen callback i mons w).2 !! fname_of output j =
  Some (png_image compress data (m_width m) (m_height m)).
Proof.
  revert i w. induction mons as [| mon rest IH]; intros i w Hnone Hlast Hget;
    [discriminate |].
  rewrite chosen_from_step in Hlast. simpl in Hnone |- *.
  destruct (decide (selected screen i)) as [Hsel | Hsel].
  - destruct (save_turn compress output screen callback i mon w)
      as [[[fname |] | e] w1] eqn:Eturn.
    + destruct (chosen_from screen (i + 1) rest) as [| im tail] eqn:Ech.
      * injection Hlast as <- <-.
        rewrite (save_loop_nothing_chosen compress output screen callback rest (i + 1) w1 Ech).
        simpl. exact (save_turn_writes_image _ _ _ _ _ _ Hsel Hget Eturn).
      * specialize (IH (i + 1) w1).
        destruct (save_loop compress output screen callback (i + 1) rest w1)
          as [[names e] w2].
        simpl in *. apply IH; [exact Hnone | | exact Hget].
        rewrite Ech. exact Hlast.
    + rewrite save_turn_selected in Eturn by exact Hsel. cbv zeta in Eturn.
      destruct (get_pixels mon) as [d |]; [| discriminate].
      destruct (to_png compress d (m_width mon) (m_height mon) (fname_of output i) _)
        as [[[] | e] w2]; discriminate.
    + discriminate.
  - rewrite save_turn_skips in Hnone |- * by exact Hsel. apply IH; assumption.
Qed.

(** X14: when the pattern holds no [%d], every selected monitor is saved
    under the one path [output], each overwriting the one before: after a
    run that no exception cut short, every path yielded is [output], and the
    file holds the image of the last selected monitor. *)
Theorem save_without_placeholder_keeps_last
  (mons : list monitor) (j : Z) (m : monitor) (data : bytes) (w : world) :
  py_in "%d" output = false ->
  enum_display_monitors screen = Ok mons ->
  (save compress output screen callback w).1.2 = None ->
  last (chosen_from screen 0 mons) = Some (j, m) ->
  get_pixels m = Ok data ->
  let r := save compress output screen callback w in
  (forall fname, fname ∈ r.1.1 -> fname = output) /\
  length r.1.1 = length (chosen_from screen 0 mons) /\
  files r.2 !! output = Some (png_image compress data (m_width m) (m_height m)).
Proof.
  intros Hpat Henum Hnone Hlast Hget r. subst r. unfold save in *. rewrite Henum in *.
  assert (forall k, fname_of output k = output) as Hname
    by (intros k; unfold fname_of; rewrite Hpat; reflexivity).
  destruct (save_loop_effect compress output screen callback mons 0 w)
    as (k & _ & _ & _ & Hend).
  rewrite Hnone in Hend. destruct Hend as (_ & Hnames & _).
  split.
  { intros fname Hin. rewrite Hnames in Hin. apply list_elem_of_fmap in Hin.
    destruct Hin as (im & -> & _). apply Hname. }
  split; [rewrite Hnames; apply length_map |].
  pose proof (save_loop_last_writer mons 0 j m data w Hnone Hlast Hget) as Hfile.
  rewrite Hname in Hfile. exact Hfile.
Qed.

End SamePath.

Lemma save_without_placeholder_keeps_last_witness :
  let r := save (backend := two_monitors) uncompressed "shot.png" 0 accept_all fresh in
  py_in "%d" "shot.png" = false /\
  r.1.1 = ["shot.png"; "shot.png"] /\
  files r.2 !! "shot.png" = Some (png_image uncompressed pixels 8 1).
Proof.
  intros r.
  assert (py_in "%d" "shot.png" = false) as Hpat by reflexivity.
  assert (r.1.2 = None) as Hnone by (vm_compute; reflexivity).
  destruct (save_without_placeholder_keeps_last (backend := two_monitors) uncompressed
              "shot.png" 0 accept_all [mon1; mon2] 1 mon2 pixels fresh
              Hpat eq_refl Hnone eq_refl eq_refl) as (_ & _ & Hfile).
  split; [exact Hpat |].
  split; [vm_compute; reflexivity | exact Hfile].
Defined.

(** ** Paths from a pattern with a placeholder *)

Lemma string_ind_two (P : string -> Prop) :
  P EmptyString ->
  (forall c, P (String c EmptyString)) ->
  (forall c d r, P r -> P (String d r) -> P (String c (String d r))) ->
  forall s, P s.
Proof.
  intros H0 H1 H2 s.
  assert (P s /\ forall c, P (String c s)) as [H _]; [| exact H].
  induction s as [| d r [IHr IHc]]; [split; [exact H0 | exact H1] |].
  split; [apply IHc |]. intros c. apply H2; [exact IHr | apply IHc].
Qed.

Lemma string_length_append (a b : string) :
  String.length (a +:+ b) = (String.length a + String.length b)%nat.
Proof. induction a as [| c a IH]; [reflexivity |]. simpl. rewrite IH. reflexivity. Qed.

Lemma string_append_inj_length (a b x y : string) :
  String.length a = String.length b -> a +:+ x = b +:+ y -> a = b.
Proof.
  revert b. induction a as [| c a IH]; intros [| d b] Hlen E; try discriminate.
  - reflexivity.
  - simpl in E, Hlen. injection E as -> E. f_equal. apply IH; [lia | exact E].
Qed.

Lemma string_append_cancel (pre a b : string) : pre +:+ a = pre +:+ b -> a = b.
Proof.
  induction pre as [| c pre IH]; intros E; [exact E |].
  simpl in E. injection E as E. apply IH. exact E.
Qed.

Lemma prefix_cons (a b : ascii) (s1 s2 : string) :
  String.prefix (String a s1) (String b s2) =
  if ascii_dec a b then String.prefix s1 s2 else false.
Proof. reflexivity. Qed.

Lemma replace_pct_d_cases (c : ascii) (r : string) :
  (exists r', r = String "d" r' /\ c = "%"%char /\
              forall x, replace_pct_d (String c r) x = x +:+ replace_pct_d r' x) \/
  (String.prefix "%d" (String c r) = false /\
   forall x, replace_pct_d (String c r) x = String c (replace_pct_d r x)).
Proof.
  destruct (ascii_dec c "%") as [-> | Hc].
  - destruct r as [| d r']; [right; split; reflexivity |].
    destruct (ascii_dec d "d") as [-> | Hd].
    + left. exists r'. repeat split; reflexivity.
    + right. split.
      * rewrite !prefix_cons.
        destruct (ascii_dec "%" "%") as [_ | N]; [| reflexivity].
        destruct (ascii_dec "d" d) as [E | _]; [congruence | reflexivity].
      * intros x. destruct d as [[|] [|] [|] [|] [|] [|] [|] [|]];
          first [reflexivity | contradiction Hd; reflexivity].
  - right. split.
    + rewrite prefix_cons.
      destruct (ascii_dec "%" c) as [E | _]; [congruence | reflexivity].
    + intros x. destruct c as [[|] [|] [|] [|] [|] [|] [|] [|]];
        first [reflexivity | contradiction Hc; reflexivity].
Qed.

Lemma py_in_pct_d_cons (c : ascii) (r : string) :
  py_in "%d" (String c r) = String.prefix "%d" (String c r) || py_in "%d" r.
Proof.
  unfold py_in.
  change (index 0 "%d" (String c r))
    with (if String.prefix "%d" (String c r) then Some 0%nat
          else match index 0 "%d" r with Some n => Some (S n) | None => None end).
  destruct (String.prefix "%d" (String c r)); [reflexivity |].
  destruct (index 0 "%d" r); reflexivity.
Qed.

Lemma replace_pct_d_shape (s : string) :
  py_in "%d" s = true ->
  exists pre post, forall x, replace_pct_d s x = pre +:+ x +:+ replace_pct_d post x.
Proof.
  induction s as [| c r IH]; [discriminate |].
  intros Hin. destruct (replace_pct_d_cases c r) as [(r' & -> & -> & Hrep) | (Hpre & Hrep)].
  - exists EmptyString, r'. intros x. rewrite Hrep. reflexivity.
  - rewrite py_in_pct_d_cons, Hpre in Hin. simpl in Hin.
    destruct (IH Hin) as (pre & post & Hshape).
    exists (String c pre), post. intros x. rewrite Hrep, Hshape. reflexivity.
Qed.

Lemma replace_pct_d_length (s : string) :
  exists n k : nat,
    (py_in "%d" s = true -> (1 <= k)%nat) /\
    forall x, String.length (replace_pct_d s x) = (n + k * String.length x)%nat.
Proof.
  induction s as [| c | c d r IHr IHd] using string_ind_two.
  - exists 0%nat, 0%nat. split; [discriminate | reflexivity].
  - destruct (replace_pct_d_cases c EmptyString) as [(r' & E & _) | (Hpre & Hrep)];
      [discriminate |].
    exists 1%nat, 0%nat. split.
    + intros Hin. rewrite py_in_pct_d_cons, Hpre in Hin. discriminate.
    + intros x. rewrite Hrep. reflexivity.
  - destruct (replace_pct_d_cases c (String d r)) as [(r' & E & -> & Hrep) | (Hpre & Hrep)].
    + injection E as -> <-. destruct IHr as (n & k & _ & Hlen).
      exists n, (S k). split; [lia |]. intros x.
      rewrite Hrep, string_length_append, Hlen. lia.
    + destruct IHd as (n & k & Hk & Hlen).
      exists (S n), k. split.
      * intros Hin. rewrite py_in_pct_d_cons, Hpre in Hin. apply Hk. exact Hin.
      * intros x. rewrite Hrep.
        change (String.length (String c (replace_pct_d (String d r) x)))
          with (S (String.length (replace_pct_d (String d r) x))).
        rewrite Hlen. reflexivity.
Qed.

Lemma replace_pct_d_inj (s a b : string) :
  py_in "%d" s = true -> replace_pct_d s a = replace_pct_d s b -> a = b.
Proof.
  intros Hin E.
  destruct (replace_pct_d_length s) as (n & k & Hk & Hlen). specialize (Hk Hin).
  assert (String.length a = String.length b) as Hab.
  { pose proof (Hlen a) as Ha. pose proof (Hlen b) as Hb. rewrite E in Ha. nia. }
  destruct (replace_pct_d_shape s Hin) as (pre & post & Hshape).
  rewrite !Hshape in E. apply string_append_cancel in E.
  apply (string_append_inj_length a b _ _ Hab E).
Qed.

Lemma str_inj (i j : Z) : str i = str j -> i = j.
Proof.
  assert (forall z, Z.to_int z <> Decimal.Pos Decimal.Nil /\
                    Z.to_int z <> Decimal.Neg Decimal.Nil) as Hnorm.
  { intros [| p | p]; simpl; split; try discriminate;
      intros [= E]; exact (DecimalPos.Unsigned.to_uint_nonnil p E). }
  unfold str. intros E. apply DecimalZ.to_int_inj.
  destruct (Hnorm i) as [Hi1 Hi2], (Hnorm j) as [Hj1 Hj2].
  pose proof (NilZero.isi _ Hi1 Hi2) as Ei. pose proof (NilZero.isi _ Hj1 Hj2) as Ej.
  rewrite E in Ei. rewrite Ei in Ej. injection Ej as ->. reflexivity.
Qed.

Lemma fname_of_inj (output : string) (i j : Z) :
  py_in "%d" output = true -> fname_of output i = fname_of output j -> i = j.
Proof.
  intros Hin E. unfold fname_of in E. rewrite Hin in E.
  apply replace_pct_d_inj in E; [| exact Hin]. apply str_inj in E. lia.
Qed.

Lemma chosen_from_indices_NoDup (screen i : Z) (mons : list monitor) :
  NoDup (chosen_from screen i mons).*1.
Proof.
  revert i. induction mons as [| mon rest IH]; intros i; [constructor |].
  rewrite chosen_from_step. destruct (decide (selected screen i)); [| apply IH].
  rewrite fmap_cons. constructor; [| apply IH].
  simpl. intros Hin. apply list_elem_of_fmap in Hin as ([j m] & E & Hin). simpl in E.
  subst j. apply elem_of_chosen_from in Hin. lia.
Qed.

Section Placeholder.

Variable compress : bytes -> bytes.
Context {backend : Backend}.
Variable output : string.
Variable screen : Z.
Variable callback : string -> bool.

Lemma paths_NoDup (l : list (Z * monitor)) :
  py_in "%d" output = true -> NoDup l.*1 ->
  NoDup (map (fun im : Z * monitor => fname_of output im.1) l).
Proof.
  intros Hin Hl.
  replace (map (fun im : Z * monitor => fname_of output im.1) l)
    with (fname_of output <$> l.*1)
    by (rewrite <- list_fmap_compose; reflexivity).
  apply NoDup_fmap_2_strong; [| exact Hl].
  intros i j _ _ E. apply (fname_of_inj output i j Hin E).
Qed.

(** X15: when the pattern holds [%d], different monitor numbers give
    different paths, so no capture of a run overwrites the file of another:
    the paths [save] yields are pairwise distinct. *)
Theorem save_paths_distinct (w : world) :
  py_in "%d" output = true ->
  (forall i j, fname_of output i = fname_of output j -> i = j) /\
  NoDup (save compress output screen callback w).1.1.
Proof.
  intros Hin. split; [intros i j; apply fname_of_inj; exact Hin |].
  unfold save. destruct (enum_display_monitors screen) as [mons | e]; [| constructor].
  destruct (save_loop_effect compress output screen callback mons 0 w)
    as (k & _ & _ & _ & Hend).
  pose proof (chosen_from_indices_NoDup screen 0 mons) as Hnd.
  destruct ((save_loop compress output screen callback 0 mons w).1.2) as [e |].
  - destruct Hend as (k' & _ & _ & ->). apply paths_NoDup; [exact Hin |].
    rewrite fmap_take. eapply sublist_NoDup; [exact Hnd | apply sublist_take].
  - destruct Hend as (_ & -> & _). apply paths_NoDup; assumption.
Qed.

End Placeholder.

Lemma save_paths_distinct_witness :
  py_in "%d" "screenshot-%d.png" = true /\
  NoDup (save (backend := two_monitors) uncompressed "screenshot-%d.png" 0 accept_all
              fresh).1.1.
Proof.
  assert (py_in "%d" "screenshot-%d.png" = true) as Hin by reflexivity.
  split; [exact Hin |].
  exact (proj2 (save_paths_distinct (backend := two_monitors) uncompressed
                  "screenshot-%d.png" 0 accept_all fresh Hin)).
Defined.

Lemma save_next_one_monitor_witness :
  let r := save_next (backend := two_monitors) uncompressed "screenshot-%d.png" 2
                     accept_all Created fresh in
  log r.2 = [Called "screenshot-2.png" true; Captured mon2] /\
  files r.2 !! "screenshot-1.png" = None.
Proof.
  intros r.
  destruct (save_next_one_monitor (backend := two_monitors) uncompressed
              "screenshot-%d.png" 2 accept_all 0 [mon1; mon2] fresh) as [Hpull Hfirst].
  assert (r = save_next (backend := two_monitors) uncompressed "screenshot-%d.png" 2
                        accept_all (Suspended 0 [mon1; mon2]) fresh) as Er
    by (apply Hfirst; reflexivity).
  change (chosen_from 2 0 [mon1; mon2]) with [(1, mon2)] in Hpull.
  cbv zeta in Hpull. rewrite <- Er in Hpull. destruct Hpull as (Hlog & Hframe & _).
  split; [exact Hlog |].
  rewrite Hframe; [reflexivity | discriminate].
Defined.
